(** * GitFS: a read-only filesystem view of a git repository

    Shallow embedding of [fs/gitfs/objects.py], [fs/gitfs/gitfile.py] and
    [fs/gitfs/gitfs.py].  Python exceptions are values of [exn]; a call that
    may raise returns a [Result].  Generators are finite traces of yielded
    values closed by an optional exception. *)

From Stdlib Require Import String Ascii List ZArith Bool.
From Stdlib Require Import Strings.Byte.
From Stdlib Require Import Lia.
Import ListNotations.
Local Open Scope string_scope.
Local Open Scope list_scope.

Set Implicit Arguments.

(* ------------------------------------------------------------------ *)
(** ** Exceptions and results *)

(** The exception classes the code names, plus the ones its collaborators
    raise.  None of them is a subclass of another one listed here. *)
Inductive exn : Type :=
| KeyError (key : string)
| IndexError (msg : string)
| AttributeError (attr : string)
| NotImplementedError
| ValueError (msg : string)
| ResourceNotFound (path : string)
| DirectoryExpected (path : string)
| FileExpected (path : string)
| ResourceReadOnly (path : string)
| FileExists (path : string)
| UnsupportedOperation (msg : string)
| OtherError (cls : string).

Inductive Result (A : Type) : Type :=
| Ok (a : A)
| Raise (e : exn).

Arguments Ok {A} a.
Arguments Raise {A} e.

Definition bind {A B} (r : Result A) (k : A -> Result B) : Result B :=
  match r with
  | Ok a => k a
  | Raise e => Raise e
  end.

Notation "x <- c ;; k" := (bind c (fun x => k))
  (at level 61, c at next level, right associativity).

(** [try: body except <classes>: handler] *)
Definition try_except {A} (body : Result A) (catches : exn -> bool)
           (handler : Result A) : Result A :=
  match body with
  | Ok a => Ok a
  | Raise e => if catches e then handler else Raise e
  end.

(** The error kinds of the host framework that the facade is meant to raise. *)
Definition is_taxonomy (e : exn) : bool :=
  match e with
  | ResourceNotFound _ | DirectoryExpected _ | FileExpected _
  | ResourceReadOnly _ | UnsupportedOperation _ => true
  | _ => false
  end.

(** [except (IndexError, KeyError, NotImplementedError)] *)
Definition is_lookup_failure (e : exn) : bool :=
  match e with
  | IndexError _ | KeyError _ | NotImplementedError => true
  | _ => false
  end.

(** [except NotImplementedError] *)
Definition is_NotImplementedError (e : exn) : bool :=
  match e with
  | NotImplementedError => true
  | _ => false
  end.

(** [except ResourceNotFound] *)
Definition is_ResourceNotFound (e : exn) : bool :=
  match e with
  | ResourceNotFound _ => true
  | _ => false
  end.

(* ------------------------------------------------------------------ *)
(** ** Generators *)

(** A finished run of a Python generator: the values it yields, then either
    normal exhaustion ([None]) or the exception that ends it. *)
Record Gen (A : Type) : Type := mkGen {
  yielded : list A;
  finish : option exn
}.

Arguments mkGen {A} yielded finish.

(** Consuming a generator to the end, as a list comprehension does. *)
Definition drain {A} (g : Gen A) : Result (list A) :=
  match finish g with
  | None => Ok (yielded g)
  | Some e => Raise e
  end.

(** [itertools.islice(g, start, stop)]: pulls at most [max start stop]
    items; the end of [g] is only reached when it has fewer. *)
Definition islice {A} (g : Gen A) (start stop : nat) : Gen A :=
  let items := firstn (stop - start) (skipn start (yielded g)) in
  if Nat.ltb (length (yielded g)) (Nat.max start stop)
  then mkGen items (finish g)
  else mkGen items None.

(* ------------------------------------------------------------------ *)
(** ** Paths: [str.strip("/")] and [str.split("/")] *)

Definition is_slash (c : ascii) : bool := Ascii.eqb c "/"%char.

Fixpoint lstrip_slash (s : string) : string :=
  match s with
  | String c s' => if is_slash c then lstrip_slash s' else s
  | EmptyString => EmptyString
  end.

Fixpoint rstrip_slash (s : string) : string :=
  match s with
  | EmptyString => EmptyString
  | String c s' =>
      match rstrip_slash s' with
      | EmptyString => if is_slash c then EmptyString else String c EmptyString
      | r => String c r
      end
  end.

Definition strip_slash (s : string) : string := rstrip_slash (lstrip_slash s).

Fixpoint split_slash (s : string) : list string :=
  match s with
  | EmptyString => [EmptyString]
  | String c s' =>
      if is_slash c then EmptyString :: split_slash s'
      else match split_slash s' with
           | h :: t => String c h :: t
           | [] => [String c EmptyString]
           end
  end.

(** The truth value of a string: empty is false. *)
Definition truthy (s : string) : bool :=
  match s with
  | EmptyString => false
  | _ => true
  end.

(* ------------------------------------------------------------------ *)
(** ** The object store (collaborator)

    What the code reads from the repository library: blobs and trees with
    their [name], [type], [size] and [mode]; commits with their root
    tree; list-like collections of refs and remotes indexed by name. *)

Record RawBlob : Type := mkBlob {
  blob_name : string;
  blob_mode : Z;
  blob_data : list byte
}.

Inductive RawTree : Type :=
| mkTree (name : string) (mode : Z) (size : Z) (entries : list GitEntry)
with GitEntry : Type :=
| EBlob (b : RawBlob)
| ETree (t : RawTree).

Definition tree_name (t : RawTree) : string :=
  match t with mkTree n _ _ _ => n end.
Definition tree_mode (t : RawTree) : Z :=
  match t with mkTree _ m _ _ => m end.
Definition tree_size (t : RawTree) : Z :=
  match t with mkTree _ _ s _ => s end.
Definition tree_entries (t : RawTree) : list GitEntry :=
  match t with mkTree _ _ _ es => es end.

Definition entry_name (e : GitEntry) : string :=
  match e with
  | EBlob b => blob_name b
  | ETree t => tree_name t
  end.

Definition entry_type (e : GitEntry) : string :=
  match e with
  | EBlob _ => "blob"
  | ETree _ => "tree"
  end.

(** [tree.trees] and [tree.blobs]: the entries of each type, in the tree's
    own order. *)
Fixpoint trees_of (es : list GitEntry) : list RawTree :=
  match es with
  | [] => []
  | ETree t :: es' => t :: trees_of es'
  | EBlob _ :: es' => trees_of es'
  end.

Fixpoint blobs_of (es : list GitEntry) : list RawBlob :=
  match es with
  | [] => []
  | EBlob b :: es' => b :: blobs_of es'
  | ETree _ :: es' => blobs_of es'
  end.

Definition trees (t : RawTree) : list RawTree := trees_of (tree_entries t).
Definition blobs (t : RawTree) : list RawBlob := blobs_of (tree_entries t).

(** [tree[name]]: the first entry of that name, [KeyError] when absent. *)
Definition tree_getitem (t : RawTree) (name : string) : Result GitEntry :=
  match find (fun e => String.eqb (entry_name e) name) (tree_entries t) with
  | Some e => Ok e
  | None => Raise (KeyError name)
  end.

(** A commit, seen through its root tree.  The root tree of a commit has an
    empty path, hence an empty [name], and the directory mode. *)
Record Commit : Type := mkCommit {
  commit_entries : list GitEntry;
  commit_tree_size : Z
}.

Definition commit_tree (c : Commit) : RawTree :=
  mkTree "" 16384 (commit_tree_size c) (commit_entries c).

Record Ref : Type := mkRef {
  ref_name : string;
  ref_commit : Commit
}.

(** The store's name-indexed list: items are found by [prefix ++ name]
    compared with their id attribute; a missing name is an [IndexError]. *)
Record IterableList (A : Type) : Type := mkIterableList {
  il_prefix : string;
  il_items : list A
}.

Arguments mkIterableList {A} il_prefix il_items.

Definition il_getitem {A} (id : A -> string) (l : IterableList A)
           (name : string) : Result A :=
  match find (fun x => String.eqb (id x) (il_prefix l ++ name)) (il_items l) with
  | Some x => Ok x
  | None => Raise (IndexError (il_prefix l ++ name))
  end.

Record Remote : Type := mkRemote {
  remote_name : string;
  remote_refs : IterableList Ref
}.

(** [head_commit] is [None] for a repository whose HEAD points at no commit
    yet; [repo.head.commit] then raises a [ValueError]. *)
Record Repo : Type := mkRepo {
  head_commit : option Commit;
  tags : IterableList Ref;
  branches : IterableList Ref;
  remotes : IterableList Remote
}.

(* ------------------------------------------------------------------ *)
(** ** Host framework (collaborator)

    The functions of the filesystem framework that the code calls and that
    are defined outside the repository. *)
Class HostFramework : Type := {
  (** [FS.validatepath] *)
  validatepath : string -> Result string;
  (** [Permissions(mode=m).dump()] *)
  Permissions_dump : Z -> list string;
  (** [fs.path.split] *)
  split : string -> string * string
}.

(** The resource-type enumeration of the host framework
    ([fs.enums.ResourceType]), which [objects.py] imports: a directory is
    numbered 1 and a file 2.  Section 4.2 of the specification gives the two
    numbers the other way round. *)
Module ResourceType.
Definition directory : Z := 1.
Definition file : Z := 2.
End ResourceType.

(* ------------------------------------------------------------------ *)
(** ** gitfile.py: the content stream *)

(** A [GitFile] is an [io.BytesIO] over the blob's bytes: the buffer, the
    read position and the closed flag. *)
Record GitFile : Type := mkGitFile {
  buf : list byte;
  pos : nat;
  closed : bool
}.

(** [GitFile.__init__]: the whole blob is read from the store once. *)
Definition GitFile_init (blob : RawBlob) : GitFile :=
  mkGitFile (blob_data blob) 0 false.

Definition GitFile_readable (self : GitFile) : bool := true.

Definition GitFile_writable (self : GitFile) : bool := false.

(** Methods that may change the stream return the stream after the call. *)
Definition GitFile_write (self : GitFile) (data : list byte)
  : Result Z * GitFile :=
  (Raise (UnsupportedOperation "write"), self).

Definition GitFile_writelines (self : GitFile) (lines : list (list byte))
  : Result unit * GitFile :=
  (Raise (UnsupportedOperation "write"), self).

(** Inherited from [io.BytesIO]: [read], [seek] from the start, [tell],
    [getvalue], [close]. *)
Definition BytesIO_read (self : GitFile) (size : option nat)
  : Result (list byte) * GitFile :=
  if closed self then (Raise (ValueError "I/O operation on closed file."), self)
  else
    let rest := skipn (pos self) (buf self) in
    let chunk := match size with
                 | None => rest
                 | Some n => firstn n rest
                 end in
    (Ok chunk, mkGitFile (buf self) (pos self + length chunk) false).

Definition BytesIO_seek (self : GitFile) (offset : nat)
  : Result nat * GitFile :=
  if closed self then (Raise (ValueError "I/O operation on closed file."), self)
  else (Ok offset, mkGitFile (buf self) offset false).

Definition BytesIO_tell (self : GitFile) : Result nat :=
  if closed self then Raise (ValueError "I/O operation on closed file.")
  else Ok (pos self).

Definition BytesIO_close (self : GitFile) : GitFile :=
  mkGitFile (buf self) (pos self) true.

(* ------------------------------------------------------------------ *)
(** ** objects.py: resource information *)

(** The attributes [GitInfo] reads from the object it is given, whether a
    node of the hierarchy or a raw object of the store. *)
Record ObjAttrs : Type := mkAttrs {
  attr_name : string;
  attr_type : string;
  attr_size : Z;
  attr_mode : Z
}.

Definition attrs_of_blob (b : RawBlob) : ObjAttrs :=
  mkAttrs (blob_name b) "blob" (Z.of_nat (length (blob_data b))) (blob_mode b).

Definition attrs_of_tree (t : RawTree) : ObjAttrs :=
  mkAttrs (tree_name t) "tree" (tree_size t) (tree_mode t).

(** [VDir.__init__] *)
Definition attrs_of_vdir (name : string) : ObjAttrs :=
  mkAttrs name "dir" 0 16384.

(** The raw info dictionary of [GitInfo]: namespaces basic, details and
    access. *)
Record GitInfo : Type := mkGitInfo {
  info_name : option string;
  info_is_dir : bool;
  info_type : Z;
  info_size : Z;
  info_permissions : list string
}.

Definition is_blob_type (ty : string) : bool := String.eqb ty "blob".

Section Hierarchy.

Context {host : HostFramework}.

(** [GitInfo.__init__(git_obj, name=None)] *)
Definition GitInfo_init (git_obj : ObjAttrs) (name : option string) : GitInfo :=
  mkGitInfo
    (if truthy (attr_name git_obj) then Some (attr_name git_obj) else name)
    (negb (is_blob_type (attr_type git_obj)))
    (if negb (is_blob_type (attr_type git_obj))
     then ResourceType.directory
     else ResourceType.file)
    (attr_size git_obj)
    (Permissions_dump (attr_mode git_obj)).

(** [GitInfo.is_writeable] *)
Definition is_writeable (self : GitInfo) (namespace key : string) : bool :=
  false.

(* ------------------------------------------------------------------ *)
(** ** objects.py: the node hierarchy *)

(** The concrete classes below [GitObject]; [VDir] itself is only ever
    instantiated through its subclasses. *)
Inductive GitObject : Type :=
| Blob (blob : RawBlob)
| TreeDir (name : string) (commit : Commit) (tree : RawTree)
| RefsDir (name : string) (refs : IterableList Ref)
| RemotesDir (name : string) (remotes : IterableList Remote)
| ObjectsDir (name : string) (repo : Repo)
| RootDir (repo : Repo).

(** [TreeDir.__init__(name, commit, tree=None)] *)
Definition TreeDir_init (name : string) (commit : Commit)
           (tree : option RawTree) : GitObject :=
  match tree with
  | None => TreeDir name commit (commit_tree commit)
  | Some t => TreeDir name commit t
  end.

(** [RootDir.__init__] calls [VDir.__init__("/")]. *)
Definition vdir_name (obj : GitObject) : string :=
  match obj with
  | RefsDir n _ | RemotesDir n _ | ObjectsDir n _ => n
  | RootDir _ => "/"
  | TreeDir n _ _ => n
  | Blob _ => ""
  end.

(** [getinfo]: [Blob] and [TreeDir] describe the raw object they wrap, the
    [VDir] subclasses describe themselves.  Every concrete class has one,
    so the [NotImplementedError] of the abstract class is never reached. *)
Definition obj_getinfo (obj : GitObject) (namespaces : option (list string))
  : GitInfo :=
  match obj with
  | Blob b => GitInfo_init (attrs_of_blob b) None
  | TreeDir n _ t => GitInfo_init (attrs_of_tree t) (Some n)
  | RefsDir _ _ | RemotesDir _ _ | ObjectsDir _ _ | RootDir _ =>
      GitInfo_init (attrs_of_vdir (vdir_name obj)) None
  end.

(** [RootDir.children]: the ordered mapping from names to constructors. *)
Definition children : list (string * (Repo -> Result GitObject)) :=
  [ ("head", fun repo =>
       match head_commit repo with
       | Some c => Ok (TreeDir_init "head" c None)
       | None => Raise (ValueError "HEAD has no commit")
       end);
    ("tags", fun repo => Ok (RefsDir "tags" (tags repo)));
    ("branches", fun repo => Ok (RefsDir "branches" (branches repo)));
    ("remotes", fun repo => Ok (RemotesDir "remotes" (remotes repo)));
    ("objects", fun repo => Ok (ObjectsDir "objects" repo)) ].

(** [d[key]] on a dictionary kept as its list of items. *)
Definition dict_getitem {V} (d : list (string * V)) (key : string) : Result V :=
  match find (fun kv => String.eqb (fst kv) key) d with
  | Some kv => Ok (snd kv)
  | None => Raise (KeyError key)
  end.

Definition RootDir_get (repo : Repo) (name : string) : Result GitObject :=
  fn <- dict_getitem children name ;;
  fn repo.

(** The test [git_obj.type == "blob"] is the case distinction on the
    entry. *)
Definition TreeDir_get (commit : Commit) (tree : RawTree) (name : string)
  : Result GitObject :=
  git_obj <- tree_getitem tree name ;;
  match git_obj with
  | EBlob b => Ok (Blob b)
  | ETree t => Ok (TreeDir_init name commit (Some t))
  end.

Definition RefsDir_get (refs : IterableList Ref) (name : string)
  : Result GitObject :=
  r <- il_getitem ref_name refs name ;;
  Ok (TreeDir_init name (ref_commit r) None).

Definition RemotesDir_get (remotes : IterableList Remote) (name : string)
  : Result GitObject :=
  r <- il_getitem remote_name remotes name ;;
  Ok (RefsDir name (remote_refs r)).

(** [ObjectsDir.get] reads [self.remotes], an attribute no [ObjectsDir]
    has. *)
Definition ObjectsDir_get (repo : Repo) (name : string) : Result GitObject :=
  Raise (AttributeError "remotes").

(** [obj.get(name)]; [Blob] inherits the abstract method. *)
Definition obj_get (obj : GitObject) (name : string) : Result GitObject :=
  match obj with
  | Blob _ => Raise NotImplementedError
  | TreeDir _ commit tree => TreeDir_get commit tree name
  | RefsDir _ refs => RefsDir_get refs name
  | RemotesDir _ remotes => RemotesDir_get remotes name
  | ObjectsDir _ repo => ObjectsDir_get repo name
  | RootDir repo => RootDir_get repo name
  end.

Definition TreeDir_scandir (tree : RawTree) : Gen GitInfo :=
  mkGen (map (fun t => GitInfo_init (attrs_of_tree t) None) (trees tree)
         ++ map (fun b => GitInfo_init (attrs_of_blob b) None) (blobs tree))
        None.

Definition RefsDir_scandir (refs : IterableList Ref) : Gen GitInfo :=
  mkGen (map (fun ref =>
                let name := snd (split (ref_name ref)) in
                GitInfo_init (attrs_of_tree (commit_tree (ref_commit ref)))
                             (Some name))
             (il_items refs))
        None.

Definition RemotesDir_scandir (remotes : IterableList Remote) : Gen GitInfo :=
  mkGen (map (fun ref =>
                obj_getinfo (RefsDir (remote_name ref) (remote_refs ref)) None)
             (il_items remotes))
        None.

(** [RootDir.scandir]: each constructor runs when its turn comes, so one
    that raises ends the generator after the earlier children. *)
Fixpoint scan_items (items : list (string * (Repo -> Result GitObject)))
         (repo : Repo) : Gen GitInfo :=
  match items with
  | [] => mkGen [] None
  | (_, fn) :: rest =>
      match fn repo with
      | Raise e => mkGen [] (Some e)
      | Ok o =>
          let g := scan_items rest repo in
          mkGen (obj_getinfo o None :: yielded g) (finish g)
      end
  end.

Definition RootDir_scandir (repo : Repo) : Gen GitInfo :=
  scan_items children repo.

(** [obj.scandir()]; [Blob] and [ObjectsDir] inherit the abstract method,
    which raises when called. *)
Definition obj_scandir (obj : GitObject) : Result (Gen GitInfo) :=
  match obj with
  | Blob _ => Raise NotImplementedError
  | TreeDir _ _ tree => Ok (TreeDir_scandir tree)
  | RefsDir _ refs => Ok (RefsDir_scandir refs)
  | RemotesDir _ remotes => Ok (RemotesDir_scandir remotes)
  | ObjectsDir _ _ => Raise NotImplementedError
  | RootDir repo => Ok (RootDir_scandir repo)
  end.

(** [obj.openbin()]; only [Blob] defines it. *)
Definition obj_openbin (obj : GitObject) : Result GitFile :=
  match obj with
  | Blob b => Ok (GitFile_init b)
  | _ => Raise NotImplementedError
  end.

(** [hasattr(obj, "scandir")]: the method is declared on [GitObject], so
    every node has the attribute. *)
Definition hasattr_scandir (obj : GitObject) : bool := true.

(* ------------------------------------------------------------------ *)
(** ** gitfs.py: the facade *)

Record GitFS : Type := mkGitFS {
  repo_path : string;
  repo : Repo
}.

(** The loop [for part in path.split("/"): obj = obj.get(part)]. *)
Fixpoint walk (obj : GitObject) (parts : list string) : Result GitObject :=
  match parts with
  | [] => Ok obj
  | part :: rest => obj' <- obj_get obj part ;; walk obj' rest
  end.

Definition _get_obj_by_path (self : GitFS) (path : string) : Result GitObject :=
  let path := strip_slash path in
  try_except
    (let obj := RootDir (repo self) in
     if truthy path then walk obj (split_slash path) else Ok obj)
    is_lookup_failure
    (Raise (ResourceNotFound path)).

Definition GitFS_exists (self : GitFS) (path : string) : Result bool :=
  try_except
    (_ <- _get_obj_by_path self path ;; Ok true)
    is_ResourceNotFound
    (Ok false).

Definition GitFS_getinfo (self : GitFS) (path : string)
           (namespaces : option (list string)) : Result GitInfo :=
  obj <- _get_obj_by_path self path ;;
  Ok (obj_getinfo obj namespaces).

Definition GitFS_listdir (self : GitFS) (path : string)
  : Result (list (option string)) :=
  obj <- _get_obj_by_path self path ;;
  try_except
    (g <- obj_scandir obj ;;
     infos <- drain g ;;
     Ok (map info_name infos))
    is_NotImplementedError
    (Raise (DirectoryExpected path)).

Definition GitFS_scandir (self : GitFS) (path : string)
           (namespaces : option (list string)) (page : option (nat * nat))
  : Result (Gen GitInfo) :=
  obj <- _get_obj_by_path self path ;;
  if negb (hasattr_scandir obj) then Raise (DirectoryExpected path)
  else
    result <- obj_scandir obj ;;
    match page with
    | Some (start, stop) => Ok (islice result start stop)
    | None => Ok result
    end.

Definition GitFS_openbin (self : GitFS) (path : string) (mode : string)
           (buffering : Z) : Result GitFile :=
  path <- validatepath path ;;
  obj <- _get_obj_by_path self path ;;
  try_except
    (obj_openbin obj)
    is_NotImplementedError
    (Raise (FileExpected path)).

(** The mutating operations return the facade after the call next to
    their result. *)
Definition GitFS_makedir (self : GitFS) (path : string)
           (permissions : option Z) (recreate : bool)
  : Result unit * GitFS :=
  (Raise (ResourceReadOnly path), self).

Definition GitFS_remove (self : GitFS) (path : string)
  : Result unit * GitFS :=
  (Raise (ResourceReadOnly path), self).

Definition GitFS_removedir (self : GitFS) (path : string)
  : Result unit * GitFS :=
  (Raise (ResourceReadOnly path), self).

Definition GitFS_setinfo (self : GitFS) (path : string)
           (info : list (string * list (string * string)))
  : Result unit * GitFS :=
  (Raise (ResourceReadOnly path), self).

End Hierarchy.

(* ------------------------------------------------------------------ *)
(** ** A host and a repository to run the model on *)

Definition linux_perms : list (string * Z) :=
  [ ("g_r", 32); ("g_w", 16); ("g_x", 8);
    ("o_r", 4); ("o_w", 2); ("o_x", 1);
    ("setguid", 1024); ("setuid", 2048); ("sticky", 512);
    ("u_r", 256); ("u_w", 128); ("u_x", 64) ]%Z.

Definition sample_dump (mode : Z) : list string :=
  map fst (filter (fun p => negb (Z.eqb (Z.land mode (snd p)) 0)) linux_perms).

Fixpoint rsplit_slash (s : string) : option (string * string) :=
  match s with
  | EmptyString => None
  | String c s' =>
      match rsplit_slash s' with
      | Some (h, t) => Some (String c h, t)
      | None => if is_slash c then Some (EmptyString, s') else None
      end
  end.

Definition sample_split (path : string) : string * string :=
  match rsplit_slash path with
  | None => ("", path)
  | Some (h, t) => (if truthy h then h else "/", t)
  end.

Fixpoint has_nul (s : string) : bool :=
  match s with
  | EmptyString => false
  | String c s' => Ascii.eqb c zero || has_nul s'
  end.

(** Paths without dot segments or doubled separators: trailing separators
    go and a leading one is added. *)
Definition sample_validatepath (path : string) : Result string :=
  if has_nul path then Raise (OtherError "InvalidCharsInPath")
  else
    let p := match path with
             | EmptyString => path
             | _ => match rstrip_slash path with
                    | EmptyString => "/"
                    | r => r
                    end
             end in
    match p with
    | String c _ => if is_slash c then Ok p else Ok (String "/" p)
    | EmptyString => Ok "/"
    end.

Definition sample_host : HostFramework := {|
  validatepath := sample_validatepath;
  Permissions_dump := sample_dump;
  split := sample_split
|}.

Definition bytes_of (s : string) : list byte := list_byte_of_string s.

Definition license_blob : RawBlob :=
  mkBlob "LICENSE" 33188 (bytes_of "MIT License").

Definition gitfs_tree : RawTree :=
  mkTree "gitfs" 16384 70
    [ EBlob (mkBlob "gitfs.py" 33188 (bytes_of "class GitFS"));
      EBlob (mkBlob "objects.py" 33188 (bytes_of "class GitInfo")) ].

Definition fs_tree : RawTree :=
  mkTree "fs" 16384 66
    [ EBlob (mkBlob "__init__.py" 33188 (bytes_of "import"));
      ETree gitfs_tree ].

Definition tests_tree : RawTree :=
  mkTree "tests" 16384 40
    [ EBlob (mkBlob "test_gitfs.py" 33188 (bytes_of "def test")) ].

(** Entries in the store's order: a blob sits between the two trees. *)
Definition sample_commit : Commit :=
  mkCommit [ EBlob license_blob; ETree fs_tree;
             EBlob (mkBlob "README.md" 33188 (bytes_of "# gitfs"));
             ETree tests_tree ] 140.

Definition sample_repo : Repo :=
  mkRepo (Some sample_commit)
         (mkIterableList "" [ mkRef "v1.0" sample_commit ])
         (mkIterableList "" [ mkRef "master" sample_commit ])
         (mkIterableList ""
            [ mkRemote "origin"
                (mkIterableList "origin/"
                   [ mkRef "origin/master" sample_commit ]) ]).

Definition sample_fs : GitFS := mkGitFS "/repo" sample_repo.

(** A repository whose HEAD points at no commit yet. *)
Definition empty_repo : Repo :=
  mkRepo None
         (mkIterableList "" []) (mkIterableList "" []) (mkIterableList "" []).

Definition empty_fs : GitFS := mkGitFS "/empty" empty_repo.

(* ------------------------------------------------------------------ *)
(** ** Sequences of facade calls *)

Inductive Call : Type :=
| CallExists (path : string)
| CallGetinfo (path : string) (namespaces : option (list string))
| CallListdir (path : string)
| CallScandir (path : string) (namespaces : option (list string))
              (page : option (nat * nat))
| CallOpenbin (path : string) (mode : string) (buffering : Z)
| CallMakedir (path : string) (permissions : option Z) (recreate : bool)
| CallRemove (path : string)
| CallRemovedir (path : string)
| CallSetinfo (path : string) (info : list (string * list (string * string))).

(** The facade a caller holds once a call has returned or raised.  The
    reading operations assign to no attribute of the facade or of the
    repository; the mutating ones hand back what they leave behind. *)
Definition after (self : GitFS) (c : Call) : GitFS :=
  match c with
  | CallMakedir p perms r => snd (GitFS_makedir self p perms r)
  | CallRemove p => snd (GitFS_remove self p)
  | CallRemovedir p => snd (GitFS_removedir self p)
  | CallSetinfo p i => snd (GitFS_setinfo self p i)
  | CallExists _ | CallGetinfo _ _ | CallListdir _
  | CallScandir _ _ _ | CallOpenbin _ _ _ => self
  end.

Definition after_all (self : GitFS) (calls : list Call) : GitFS :=
  fold_left after calls self.

(* ------------------------------------------------------------------ *)
(** ** Vocabulary of the properties *)

Definition root_names : list string :=
  ["head"; "tags"; "branches"; "remotes"; "objects"].

Fixpoint has_slash (s : string) : bool :=
  match s with
  | EmptyString => false
  | String c s' => is_slash c || has_slash s'
  end.

(** A path segment: not empty, no separator. *)
Definition is_segment (s : string) : bool := truthy s && negb (has_slash s).

(** The node classes that define [scandir] themselves. *)
Definition defines_scandir (obj : GitObject) : bool :=
  match obj with
  | Blob _ | ObjectsDir _ _ => false
  | TreeDir _ _ _ | RefsDir _ _ | RemotesDir _ _ | RootDir _ => true
  end.

Definition is_tree_entry (e : GitEntry) : bool :=
  match e with ETree _ => true | EBlob _ => false end.

Definition is_blob_entry (e : GitEntry) : bool :=
  match e with EBlob _ => true | ETree _ => false end.

Definition attrs_of_entry (e : GitEntry) : ObjAttrs :=
  match e with
  | EBlob b => attrs_of_blob b
  | ETree t => attrs_of_tree t
  end.

(** Whether [name] is absent from the children a node can look up.  A blob
    has no children at all; [ObjectsDir] keeps no table of children. *)
Definition missing_child (obj : GitObject) (name : string) : bool :=
  match obj with
  | Blob _ => true
  | TreeDir _ _ tree =>
      negb (existsb (fun e => String.eqb (entry_name e) name)
                    (tree_entries tree))
  | RefsDir _ refs =>
      negb (existsb (fun r => String.eqb (ref_name r) (il_prefix refs ++ name))
                    (il_items refs))
  | RemotesDir _ remotes =>
      negb (existsb (fun r => String.eqb (remote_name r)
                                         (il_prefix remotes ++ name))
                    (il_items remotes))
  | RootDir _ => negb (existsb (String.eqb name) root_names)
  | ObjectsDir _ _ => false
  end.

(** The exception classes that a [get] of some node can raise. *)
Definition raised_by_get (e : exn) : bool :=
  match e with
  | KeyError _ | IndexError _ | NotImplementedError
  | AttributeError _ | ValueError _ => true
  | _ => false
  end.

(** The path resolves, and to a node whose information says directory. *)
Definition resolves_to_directory {host : HostFramework}
           (self : GitFS) (path : string) : Prop :=
  exists obj, _get_obj_by_path self path = Ok obj /\
              info_is_dir (obj_getinfo obj None) = true.

(** [listdir] returns the names of what [scandir] yields, in order. *)
Definition listdir_matches_scandir {host : HostFramework}
           (self : GitFS) (path : string) : Prop :=
  exists infos,
    GitFS_scandir self path None None = Ok (mkGen infos None) /\
    GitFS_listdir self path = Ok (map info_name infos).

(** The path of the child [seg] of the directory at [path], both without
    outer separators. *)
Definition child_path (path seg : string) : string :=
  match strip_slash path with
  | EmptyString => seg
  | q => q ++ String "/" seg
  end.

(** The first segment of a path. *)
Definition first_segment (path : string) : string :=
  hd EmptyString (split_slash (strip_slash path)).

(** The nodes below the first level other than [ObjectsDir]. *)
Definition below_root (obj : GitObject) : bool :=
  match obj with
  | Blob _ | TreeDir _ _ _ | RefsDir _ _ | RemotesDir _ _ => true
  | ObjectsDir _ _ | RootDir _ => false
  end.

(* ------------------------------------------------------------------ *)
(** ** gitfs.py: metadata, printing, construction; opener.py *)

Inductive MetaValue : Type :=
| MetaBool (b : bool)
| MetaStr (s : string)
| MetaNone.

(** [GitFS._meta] *)
Definition _meta : list (string * MetaValue) :=
  [ ("case_insensitive", MetaBool false);
    ("invalid_path_chars", MetaStr (String zero EmptyString));
    ("max_path_length", MetaNone);
    ("max_sys_path_length", MetaNone);
    ("network", MetaBool false);
    ("read_only", MetaBool true);
    ("supports_rename", MetaBool false);
    ("thread_safe", MetaBool true);
    ("unicode_paths", MetaBool true);
    ("virtual", MetaBool false) ].

Definition GitFS_getmeta (self : GitFS) (namespace : string)
  : list (string * MetaValue) :=
  if String.eqb namespace "standard" then _meta else [].

Definition GitFS_repr (self : GitFS) : string :=
  "GitFS(" ++ repo_path self ++ ")".

Definition GitFS_str (self : GitFS) : string :=
  "<gitfs '" ++ repo_path self ++ "'>".

(** The fields of the opener's [ParseResult]. *)
Record ParseResult : Type := mkParseResult {
  protocol : string;
  username : option string;
  password : option string;
  resource : string;
  params : list (string * string);
  parsed_path : option string
}.

Section Opening.

(** [Repo(path)] of the repository library: the repository at a location,
    or the exception it raises there. *)
Variable Repo_open : string -> Result Repo.

(** [GitFS.__init__] *)
Definition GitFS_init (repo_path : string) : Result GitFS :=
  r <- Repo_open repo_path ;;
  Ok (mkGitFS repo_path r).

(** [GitOpener.open_fs] *)
Definition open_fs (fs_url : string) (parse_result : ParseResult)
           (writeable create : bool) (cwd : string) : Result GitFS :=
  GitFS_init (resource parse_result).

End Opening.

(* ------------------------------------------------------------------ *)
(** ** Lemmas on paths *)

Lemma rstrip_slash_no_slash (s : string) :
  has_slash s = false -> rstrip_slash s = s.
Proof.
  induction s as [|c s IH]; simpl; intro H.
  - reflexivity.
  - apply orb_false_iff in H. destruct H as [Hc Hs].
    rewrite (IH Hs). rewrite Hc. destruct s; reflexivity.
Qed.

Lemma lstrip_slash_no_slash (s : string) :
  has_slash s = false -> lstrip_slash s = s.
Proof.
  destruct s as [|c s]; simpl; intro H.
  - reflexivity.
  - apply orb_false_iff in H. destruct H as [Hc _]. now rewrite Hc.
Qed.

Lemma strip_slash_segment (name : string) :
  has_slash name = false -> strip_slash (String "/" name) = name.
Proof.
  intro H. unfold strip_slash. simpl.
  rewrite (lstrip_slash_no_slash _ H). now apply rstrip_slash_no_slash.
Qed.

Lemma split_slash_segment (name : string) :
  has_slash name = false -> split_slash name = [name].
Proof.
  induction name as [|c s IH]; simpl; intro H.
  - reflexivity.
  - apply orb_false_iff in H. destruct H as [Hc Hs].
    rewrite Hc, (IH Hs). reflexivity.
Qed.

(* ------------------------------------------------------------------ *)
(** ** Lemmas on lookups *)

Lemma entry_type_blob (e : GitEntry) :
  is_blob_type (entry_type e) = is_blob_entry e.
Proof.
  destruct e; reflexivity.
Qed.

Lemma find_existsb_false {A} (f : A -> bool) (l : list A) :
  existsb f l = false -> find f l = None.
Proof.
  induction l as [|a l IH]; simpl; intro H.
  - reflexivity.
  - apply orb_false_iff in H. destruct H as [Ha Hl].
    rewrite Ha. now apply IH.
Qed.

Lemma not_in_root_names (name : string) :
  ~ In name root_names <-> existsb (String.eqb name) root_names = false.
Proof.
  split.
  - intro H. destruct (existsb (String.eqb name) root_names) eqn:E; auto.
    exfalso. apply H. apply existsb_exists in E.
    destruct E as [x [Hin Heq]]. apply String.eqb_eq in Heq. now subst.
  - intros H Hin.
    assert (existsb (String.eqb name) root_names = true) as E.
    { apply existsb_exists. exists name. split; auto. apply String.eqb_refl. }
    congruence.
Qed.

Lemma dict_getitem_children_missing (name : string) :
  existsb (String.eqb name) root_names = false ->
  dict_getitem children name = Raise (KeyError name).
Proof.
  intro H. unfold dict_getitem.
  rewrite find_existsb_false; auto.
  unfold root_names in H. cbn [existsb] in H.
  unfold children. cbn [existsb fst].
  repeat (apply orb_false_iff in H; destruct H as [?E H]).
  rewrite !(String.eqb_sym _ name).
  repeat match goal with E : String.eqb name _ = false |- _ =>
    rewrite E; clear E end.
  reflexivity.
Qed.

(* ------------------------------------------------------------------ *)
(** ** Path resolution *)

Section Resolution.

Context {host : HostFramework}.

Lemma obj_get_raises (obj : GitObject) (name : string) (e : exn) :
  obj_get obj name = Raise e -> raised_by_get e = true.
Proof.
  destruct obj as [b|n c t|n refs|n rems|n r|r]; simpl.
  - intro H. inversion H. reflexivity.
  - unfold TreeDir_get, tree_getitem.
    destruct (find _ (tree_entries t)) as [[b|t']|]; simpl; intro H;
      inversion H; reflexivity.
  - unfold RefsDir_get, il_getitem.
    destruct (find _ (il_items refs)); simpl; intro H; inversion H; reflexivity.
  - unfold RemotesDir_get, il_getitem.
    destruct (find _ (il_items rems)); simpl; intro H; inversion H; reflexivity.
  - unfold ObjectsDir_get. intro H. inversion H. reflexivity.
  - unfold RootDir_get, dict_getitem.
    destruct (find _ children) as [[k fn]|] eqn:F; simpl.
    + unfold children in F. cbn [find fst] in F.
      repeat match type of F with
             | (if ?b then _ else _) = _ => destruct b
             end; inversion F; subst; simpl;
        try (intro H; discriminate H).
      destruct (head_commit r); intro H; inversion H; reflexivity.
    + intro H. inversion H. reflexivity.
Qed.

Lemma walk_raises (parts : list string) : forall (obj : GitObject) (e : exn),
  walk obj parts = Raise e -> raised_by_get e = true.
Proof.
  induction parts as [|p ps IH]; simpl; intros obj e H.
  - discriminate H.
  - destruct (obj_get obj p) as [obj'|e'] eqn:G; simpl in H.
    + eapply IH; eauto.
    + inversion H; subst. eapply obj_get_raises; eauto.
Qed.

Lemma walk_app (pre rest : list string) : forall obj : GitObject,
  walk obj (pre ++ rest) = (o <- walk obj pre ;; walk o rest).
Proof.
  induction pre as [|p ps IH]; simpl; intro obj.
  - reflexivity.
  - destruct (obj_get obj p) as [obj'|e]; simpl; auto.
Qed.

Lemma obj_get_not_root (obj : GitObject) (name : string) (r : Repo) :
  obj_get obj name <> Ok (RootDir r).
Proof.
  destruct obj as [b|n c t|n refs|n rems|n r'|r']; simpl; try discriminate.
  - unfold TreeDir_get, tree_getitem.
    destruct (find _ (tree_entries t)) as [[b|t']|]; simpl; discriminate.
  - unfold RefsDir_get, il_getitem.
    destruct (find _ (il_items refs)); simpl; discriminate.
  - unfold RemotesDir_get, il_getitem.
    destruct (find _ (il_items rems)); simpl; discriminate.
  - unfold RootDir_get, dict_getitem.
    destruct (find _ children) as [[k fn]|] eqn:F; simpl; try discriminate.
    unfold children in F. cbn [find fst] in F.
    repeat match type of F with
           | (if ?b then _ else _) = _ => destruct b
           end; inversion F; subst; simpl; try discriminate.
    destruct (head_commit r'); discriminate.
Qed.

Lemma walk_root_only_at_start (parts : list string) :
  forall (obj : GitObject) (r : Repo),
  walk obj parts = Ok (RootDir r) -> parts = [] /\ obj = RootDir r.
Proof.
  induction parts as [|p ps IH]; simpl; intros obj r H.
  - inversion H. auto.
  - exfalso. destruct (obj_get obj p) as [obj'|e] eqn:G; simpl in H.
    + destruct (IH _ _ H) as [_ ->]. eapply obj_get_not_root; eauto.
    + discriminate H.
Qed.

Lemma resolved_root_is_own (self : GitFS) (path : string) (r : Repo) :
  _get_obj_by_path self path = Ok (RootDir r) -> r = repo self.
Proof.
  unfold _get_obj_by_path, try_except.
  destruct (truthy (strip_slash path)).
  - destruct (walk _ _) as [o|e] eqn:W.
    + intro H. inversion H; subst.
      apply walk_root_only_at_start in W. destruct W as [_ W].
      now inversion W.
    + destruct (is_lookup_failure e); discriminate.
  - intro H. now inversion H.
Qed.

(** A lookup of a missing child raises one of the exceptions that path
    resolution turns into [ResourceNotFound]. *)
Lemma missing_child_get (obj : GitObject) (name : string) :
  missing_child obj name = true ->
  exists e, obj_get obj name = Raise e /\ is_lookup_failure e = true.
Proof.
  destruct obj as [b|n c t|n refs|n rems|n r|r]; simpl; intro H.
  - eexists; split; reflexivity.
  - apply negb_true_iff in H. unfold TreeDir_get, tree_getitem.
    rewrite (find_existsb_false _ _ H). eexists; split; reflexivity.
  - apply negb_true_iff in H. unfold RefsDir_get, il_getitem.
    rewrite (find_existsb_false _ _ H). eexists; split; reflexivity.
  - apply negb_true_iff in H. unfold RemotesDir_get, il_getitem.
    rewrite (find_existsb_false _ _ H). eexists; split; reflexivity.
  - discriminate H.
  - apply negb_true_iff in H. unfold RootDir_get.
    rewrite (dict_getitem_children_missing _ H). eexists; split; reflexivity.
Qed.

(** Resolution stops with [ResourceNotFound] at the first segment that names
    a missing child, wherever in the path it stands. *)
Lemma missing_segment_ResourceNotFound
      (self : GitFS) (path : string) (pre rest : list string)
      (name : string) (obj : GitObject) :
  truthy (strip_slash path) = true ->
  split_slash (strip_slash path) = pre ++ name :: rest ->
  walk (RootDir (repo self)) pre = Ok obj ->
  missing_child obj name = true ->
  _get_obj_by_path self path = Raise (ResourceNotFound (strip_slash path)).
Proof.
  intros Ht Hs Hw Hm. unfold _get_obj_by_path.
  rewrite Ht, Hs, walk_app, Hw. simpl.
  destruct (missing_child_get _ _ Hm) as [e [He Hl]].
  rewrite He. simpl. now rewrite Hl.
Qed.

Lemma root_unknown_name_ResourceNotFound (self : GitFS) (name : string) :
  is_segment name = true ->
  ~ In name root_names ->
  _get_obj_by_path self (String "/" name) = Raise (ResourceNotFound name).
Proof.
  intros H Hn.
  apply andb_true_iff in H. destruct H as [Ht Hs].
  apply negb_true_iff in Hs. apply not_in_root_names in Hn.
  rewrite <- (strip_slash_segment _ Hs) at 2.
  apply (missing_segment_ResourceNotFound self (String "/" name)
           [] [] name (obj := RootDir (repo self))).
  - now rewrite strip_slash_segment.
  - rewrite strip_slash_segment; auto. now apply split_slash_segment.
  - reflexivity.
  - unfold missing_child. now rewrite Hn.
Qed.

(** Whatever resolution raises, it is [ResourceNotFound] or an exception
    of a node that the facade does not catch. *)
Lemma _get_obj_by_path_raises (self : GitFS) (path : string) (e : exn) :
  _get_obj_by_path self path = Raise e ->
  e = ResourceNotFound (strip_slash path) \/
  (raised_by_get e = true /\ is_lookup_failure e = false).
Proof.
  unfold _get_obj_by_path, try_except.
  destruct (truthy (strip_slash path)).
  - destruct (walk _ _) as [o|e'] eqn:W; try discriminate.
    destruct (is_lookup_failure e') eqn:L; intro H; inversion H; subst.
    + now left.
    + right. split; auto. eapply walk_raises; eauto.
  - discriminate.
Qed.

End Resolution.

(* ------------------------------------------------------------------ *)
(** ** Properties of the facade *)

Section Facade.

Context {host : HostFramework}.

(** C1 (defect in the code): a lookup below [/objects] ends in the
    [AttributeError] of [ObjectsDir.get], which no handler of the facade
    catches: [exists], [getinfo], [listdir] and [scandir] all let it
    through, and it is none of the four error kinds. *)
Theorem objects_lookup_raises_AttributeError (self : GitFS) :
  GitFS_exists self "/objects/x" = Raise (AttributeError "remotes") /\
  GitFS_getinfo self "/objects/x" None = Raise (AttributeError "remotes") /\
  GitFS_listdir self "/objects/x" = Raise (AttributeError "remotes") /\
  GitFS_scandir self "/objects/x" None None = Raise (AttributeError "remotes") /\
  is_taxonomy (AttributeError "remotes") = false.
Proof.
  repeat split; reflexivity.
Qed.

(** C2 (defect in the code): on a path that resolves to a blob, [scandir]
    of the facade raises the [NotImplementedError] of the abstract method,
    because the [hasattr] test holds for every node; [listdir] on the same
    path raises [DirectoryExpected]. *)
Theorem scandir_blob_raises_NotImplementedError
        (self : GitFS) (path : string) (blob : RawBlob)
        (namespaces : option (list string)) (page : option (nat * nat)) :
  _get_obj_by_path self path = Ok (Blob blob) ->
  GitFS_scandir self path namespaces page = Raise NotImplementedError /\
  is_taxonomy NotImplementedError = false /\
  GitFS_listdir self path = Raise (DirectoryExpected path).
Proof.
  intro H. unfold GitFS_scandir, GitFS_listdir. rewrite H. simpl.
  repeat split; reflexivity.
Qed.

(** C3 (defect in the code): when the missing intermediate segment stands
    below [/objects], the operation ends in [AttributeError], not in
    [ResourceNotFound]. *)
Theorem missing_segment_below_objects_not_ResourceNotFound (self : GitFS) :
  GitFS_getinfo self "/objects/x/y" None = Raise (AttributeError "remotes") /\
  GitFS_listdir self "/objects/x/y" = Raise (AttributeError "remotes") /\
  GitFS_exists self "/objects/x/y" = Raise (AttributeError "remotes") /\
  is_ResourceNotFound (AttributeError "remotes") = false.
Proof.
  repeat split; reflexivity.
Qed.

(** Apart from that, resolution is asymmetric as intended: a missing child
    at any segment makes every reading operation end in [ResourceNotFound]
    ([exists] answers false). *)
Lemma missing_segment_operations
      (self : GitFS) (path : string) (pre rest : list string)
      (name : string) (obj : GitObject)
      (namespaces : option (list string)) (page : option (nat * nat)) :
  truthy (strip_slash path) = true ->
  split_slash (strip_slash path) = pre ++ name :: rest ->
  walk (RootDir (repo self)) pre = Ok obj ->
  missing_child obj name = true ->
  GitFS_exists self path = Ok false /\
  GitFS_getinfo self path namespaces
    = Raise (ResourceNotFound (strip_slash path)) /\
  GitFS_listdir self path = Raise (ResourceNotFound (strip_slash path)) /\
  GitFS_scandir self path namespaces page
    = Raise (ResourceNotFound (strip_slash path)).
Proof.
  intros Ht Hs Hw Hm.
  pose proof (missing_segment_ResourceNotFound self path pre rest name
                Ht Hs Hw Hm) as R.
  unfold GitFS_exists, GitFS_getinfo, GitFS_listdir, GitFS_scandir.
  rewrite R. simpl. repeat split; reflexivity.
Qed.

Lemma missing_segment_openbin
      (self : GitFS) (path path' : string) (pre rest : list string)
      (name : string) (obj : GitObject) (mode : string) (buffering : Z) :
  validatepath path = Ok path' ->
  truthy (strip_slash path') = true ->
  split_slash (strip_slash path') = pre ++ name :: rest ->
  walk (RootDir (repo self)) pre = Ok obj ->
  missing_child obj name = true ->
  GitFS_openbin self path mode buffering
    = Raise (ResourceNotFound (strip_slash path')).
Proof.
  intros Hv Ht Hs Hw Hm. unfold GitFS_openbin. rewrite Hv. simpl.
  rewrite (missing_segment_ResourceNotFound self path' pre rest name
             Ht Hs Hw Hm).
  reflexivity.
Qed.

(** [DirectoryExpected] comes out of [listdir] only once the whole path
    has resolved, to a node that does not define [scandir]. *)
Lemma listdir_DirectoryExpected_terminal
      (self : GitFS) (path q : string) :
  GitFS_listdir self path = Raise (DirectoryExpected q) ->
  q = path /\
  exists obj, _get_obj_by_path self path = Ok obj /\
              defines_scandir obj = false.
Proof.
  unfold GitFS_listdir.
  destruct (_get_obj_by_path self path) as [obj|e] eqn:R; simpl.
  - destruct obj as [b|n c t|n refs|n rems|n r|r]; simpl;
      try (intro H; inversion H; split; [reflexivity | eexists; split; eauto]);
      try discriminate.
    unfold drain. destruct (finish (RootDir_scandir r)) as [e|] eqn:F;
      simpl; try discriminate.
    unfold RootDir_scandir, children in F. cbn [scan_items] in F.
    destruct (head_commit r); simpl in F; inversion F; subst.
    simpl. discriminate.
  - intro H. inversion H; subst.
    apply _get_obj_by_path_raises in R. destruct R as [R|[R _]]; discriminate.
Qed.

(** [FileExpected] comes out of [openbin] only once the validated path has
    resolved, to a node that is not a blob. *)
Lemma openbin_FileExpected_terminal
      (self : GitFS) (path path' q : string) (mode : string) (buffering : Z) :
  validatepath path = Ok path' ->
  GitFS_openbin self path mode buffering = Raise (FileExpected q) ->
  q = path' /\
  exists obj, _get_obj_by_path self path' = Ok obj /\
              obj_openbin obj = Raise NotImplementedError.
Proof.
  intro Hv. unfold GitFS_openbin. rewrite Hv. simpl.
  destruct (_get_obj_by_path self path') as [obj|e] eqn:R; simpl.
  - destruct obj; simpl; try discriminate;
      intro H; inversion H; split; auto; eexists; split; eauto.
  - intro H. inversion H; subst.
    apply _get_obj_by_path_raises in R. destruct R as [R|[R _]]; discriminate.
Qed.

(** No call changes the facade the caller holds. *)
Lemma after_all_unchanged (self : GitFS) (calls : list Call) :
  after_all self calls = self.
Proof.
  unfold after_all. induction calls as [|c cs IH]; simpl; auto.
  destruct c; simpl; exact IH.
Qed.

(** C4: [makedir], [remove], [removedir] and [setinfo] raise
    [ResourceReadOnly] on every path, whether it exists or not, and hand
    back the facade unchanged; after any sequence of calls the facade is
    the one the caller started with, so every later read answers the same. *)
Theorem mutating_operations_read_only
        (self : GitFS) (path : string) (permissions : option Z)
        (recreate : bool) (info : list (string * list (string * string))) :
  GitFS_makedir self path permissions recreate
    = (Raise (ResourceReadOnly path), self) /\
  GitFS_remove self path = (Raise (ResourceReadOnly path), self) /\
  GitFS_removedir self path = (Raise (ResourceReadOnly path), self) /\
  GitFS_setinfo self path info = (Raise (ResourceReadOnly path), self) /\
  (forall calls : list Call, after_all self calls = self) /\
  (forall (calls : list Call) (q : string) (ns : option (list string)),
      GitFS_exists (after_all self calls) q = GitFS_exists self q /\
      GitFS_getinfo (after_all self calls) q ns = GitFS_getinfo self q ns /\
      GitFS_listdir (after_all self calls) q = GitFS_listdir self q).
Proof.
  repeat split; auto using after_all_unchanged;
    rewrite after_all_unchanged; reflexivity.
Qed.

(** C5: in a repository with a HEAD commit the root is a directory, its
    children are enumerated as head, tags, branches, remotes, objects in
    that order, and any other name looked up at the root ends in
    [ResourceNotFound]. *)
Theorem root_directory_children
        (self : GitFS) (c : Commit) (namespaces : option (list string)) :
  head_commit (repo self) = Some c ->
  (exists i, GitFS_getinfo self "/" namespaces = Ok i /\
             info_is_dir i = true) /\
  GitFS_listdir self "/" = Ok (map Some root_names) /\
  (exists infos,
      GitFS_scandir self "/" namespaces None = Ok (mkGen infos None) /\
      map info_name infos = map Some root_names) /\
  (forall name : string,
      ~ In name root_names ->
      obj_get (RootDir (repo self)) name = Raise (KeyError name)) /\
  (forall name : string,
      is_segment name = true ->
      ~ In name root_names ->
      GitFS_getinfo self (String "/" name) namespaces
        = Raise (ResourceNotFound name) /\
      GitFS_listdir self (String "/" name) = Raise (ResourceNotFound name) /\
      GitFS_exists self (String "/" name) = Ok false).
Proof.
  intro Hhead. repeat split.
  - eexists. split; reflexivity.
  - unfold GitFS_listdir. simpl. unfold RootDir_scandir, children.
    cbn [scan_items]. rewrite Hhead. reflexivity.
  - unfold GitFS_scandir. simpl. unfold RootDir_scandir, children.
    cbn [scan_items]. rewrite Hhead. simpl. eexists. split; reflexivity.
  - intros name Hn. simpl. unfold RootDir_get.
    apply not_in_root_names in Hn.
    now rewrite (dict_getitem_children_missing _ Hn).
  - unfold GitFS_getinfo.
    now rewrite (root_unknown_name_ResourceNotFound self H H0).
  - unfold GitFS_listdir.
    now rewrite (root_unknown_name_ResourceNotFound self H H0).
  - unfold GitFS_exists.
    now rewrite (root_unknown_name_ResourceNotFound self H H0).
Qed.

Lemma obj_scandir_completes (obj : GitObject) :
  defines_scandir obj = true ->
  (forall r, obj = RootDir r -> head_commit r <> None) ->
  exists infos, obj_scandir obj = Ok (mkGen infos None).
Proof.
  destruct obj as [b|n c t|n refs|n rems|n r|r]; simpl; intros Hd Hr;
    try discriminate; try (eexists; reflexivity).
  unfold RootDir_scandir, children. cbn [scan_items].
  destruct (head_commit r) eqn:Hh.
  - simpl. eexists; reflexivity.
  - exfalso. now apply (Hr r).
Qed.

Lemma defines_scandir_is_dir (obj : GitObject) :
  defines_scandir obj = true -> info_is_dir (obj_getinfo obj None) = true.
Proof.
  destruct obj; simpl; intro H; try discriminate; reflexivity.
Qed.

(** C6 (as amended): for a path that resolves to a directory node whose
    class defines [scandir] (the root, a tree, a ref collection or a remote
    collection; for the root, in a repository with a HEAD commit),
    [listdir] returns the names of the records [scandir] yields, in the
    same order; the node is a directory; and after any sequence of facade
    calls both operations return what they returned before. *)
Theorem listdir_names_of_scandir
        (self : GitFS) (path : string) (obj : GitObject)
        (namespaces : option (list string)) :
  _get_obj_by_path self path = Ok obj ->
  defines_scandir obj = true ->
  (forall r, obj = RootDir r -> head_commit r <> None) ->
  info_is_dir (obj_getinfo obj None) = true /\
  exists infos,
    GitFS_scandir self path namespaces None = Ok (mkGen infos None) /\
    GitFS_listdir self path = Ok (map info_name infos) /\
    (forall calls : list Call,
        GitFS_scandir (after_all self calls) path namespaces None
          = Ok (mkGen infos None) /\
        GitFS_listdir (after_all self calls) path
          = Ok (map info_name infos)).
Proof.
  intros Hr Hd Hh. split; [now apply defines_scandir_is_dir|].
  destruct (obj_scandir_completes Hd Hh) as [infos Hs].
  exists infos.
  assert (GitFS_scandir self path namespaces None = Ok (mkGen infos None)
          /\ GitFS_listdir self path = Ok (map info_name infos)) as [A B].
  { unfold GitFS_scandir, GitFS_listdir. rewrite Hr. simpl. rewrite Hs.
    split; reflexivity. }
  repeat split; auto; intros; rewrite after_all_unchanged; assumption.
Qed.

Lemma scandir_entries_by_type (es : list GitEntry) :
  map (fun t => GitInfo_init (attrs_of_tree t) None) (trees_of es)
    = map (fun e => GitInfo_init (attrs_of_entry e) None)
          (filter is_tree_entry es) /\
  map (fun b => GitInfo_init (attrs_of_blob b) None) (blobs_of es)
    = map (fun e => GitInfo_init (attrs_of_entry e) None)
          (filter is_blob_entry es).
Proof.
  induction es as [|[b|t] es [IHt IHb]]; simpl; split; auto;
    now (rewrite IHt || rewrite IHb).
Qed.

(** C7: a tree directory yields the records of its sub-trees, then those of
    its blobs; each group is the tree's own entry list filtered by type, so
    it keeps the store's order; every record of the first group is a
    directory and every record of the second a file. *)
Theorem TreeDir_scandir_trees_then_blobs
        (name : string) (commit : Commit) (tree : RawTree) :
  exists dirs files : list GitInfo,
    obj_scandir (TreeDir name commit tree) = Ok (mkGen (dirs ++ files) None) /\
    dirs = map (fun e => GitInfo_init (attrs_of_entry e) None)
               (filter is_tree_entry (tree_entries tree)) /\
    files = map (fun e => GitInfo_init (attrs_of_entry e) None)
                (filter is_blob_entry (tree_entries tree)) /\
    Forall (fun i => info_is_dir i = true) dirs /\
    Forall (fun i => info_is_dir i = false) files.
Proof.
  destruct (scandir_entries_by_type (tree_entries tree)) as [Ht Hb].
  eexists; eexists. split; [|split; [reflexivity|split; [reflexivity|]]].
  - simpl. unfold TreeDir_scandir, trees, blobs. now rewrite Ht, Hb.
  - split; apply Forall_forall; intros i Hi; apply in_map_iff in Hi;
      destruct Hi as [e [<- He]]; apply filter_In in He;
      destruct He as [_ He]; destruct e; simpl in He; try discriminate;
      reflexivity.
Qed.

(** C8: whatever its buffer, read position and closed flag, a content
    stream reports readable and not writable, and [write] and [writelines]
    raise [UnsupportedOperation] for every argument and leave the stream as
    it was, so a later [tell] or [read] answers as before. *)
Theorem GitFile_write_unsupported
        (self : GitFile) (data : list byte) (lines : list (list byte)) :
  GitFile_readable self = true /\
  GitFile_writable self = false /\
  GitFile_write self data = (Raise (UnsupportedOperation "write"), self) /\
  GitFile_writelines self lines
    = (Raise (UnsupportedOperation "write"), self) /\
  is_taxonomy (UnsupportedOperation "write") = true /\
  pos (snd (GitFile_write self data)) = pos self /\
  buf (snd (GitFile_write self data)) = buf self /\
  pos (snd (GitFile_writelines self lines)) = pos self /\
  buf (snd (GitFile_writelines self lines)) = buf self /\
  BytesIO_tell (snd (GitFile_write self data)) = BytesIO_tell self /\
  (forall size : option nat,
      BytesIO_read (snd (GitFile_write self data)) size
        = BytesIO_read self size /\
      BytesIO_read (snd (GitFile_writelines self lines)) size
        = BytesIO_read self size).
Proof.
  repeat split; reflexivity.
Qed.

(** C9 (as amended): the name of a descriptor is the native name of the
    object when that is not empty and the override name otherwise, so the
    tree of a ref carries the name of the ref; [is_dir] holds exactly when
    the type is not "blob"; the type number is that of the host's
    enumeration, 1 for a directory and 2 for a file; [is_writeable] is
    false for every namespace and key. *)
Theorem GitInfo_fields (git_obj : ObjAttrs) (name : option string) :
  (attr_name git_obj <> "" ->
   info_name (GitInfo_init git_obj name) = Some (attr_name git_obj)) /\
  (attr_name git_obj = "" ->
   info_name (GitInfo_init git_obj name) = name) /\
  (info_is_dir (GitInfo_init git_obj name) = true
   <-> attr_type git_obj <> "blob") /\
  (info_is_dir (GitInfo_init git_obj name) = true ->
   info_type (GitInfo_init git_obj name) = ResourceType.directory /\
   info_type (GitInfo_init git_obj name) = 1%Z) /\
  (info_is_dir (GitInfo_init git_obj name) = false ->
   info_type (GitInfo_init git_obj name) = ResourceType.file /\
   info_type (GitInfo_init git_obj name) = 2%Z) /\
  (forall namespace key : string,
      is_writeable (GitInfo_init git_obj name) namespace key = false) /\
  (forall (ref : string) (commit : Commit) (ns : option (list string)),
      info_name (obj_getinfo (TreeDir_init ref commit None) ns) = Some ref).
Proof.
  unfold GitInfo_init, is_blob_type; simpl. repeat split.
  - intro H. destruct (attr_name git_obj); [congruence | reflexivity].
  - intros ->. reflexivity.
  - intros H E. rewrite E in H. discriminate H.
  - intro H. apply negb_true_iff. now apply String.eqb_neq.
  - now rewrite H.
  - now rewrite H.
  - now rewrite H.
  - now rewrite H.
Qed.

(** C10: [openbin] never reads its mode (nor its buffering): two calls
    that differ only there return the same; when the validated path
    resolves to a blob, every mode, "w", "a" and "x" included, gets the
    read-only stream over the bytes of the blob, never [FileExists]. *)
Theorem openbin_ignores_mode
        (self : GitFS) (path path' : string) (blob : RawBlob) :
  validatepath path = Ok path' ->
  _get_obj_by_path self path' = Ok (Blob blob) ->
  (forall (mode mode' : string) (buffering buffering' : Z),
      GitFS_openbin self path mode buffering
        = GitFS_openbin self path mode' buffering') /\
  (forall (mode : string) (buffering : Z),
      GitFS_openbin self path mode buffering = Ok (GitFile_init blob) /\
      (forall q, GitFS_openbin self path mode buffering
                   <> Raise (FileExists q))) /\
  GitFile_writable (GitFile_init blob) = false /\
  buf (GitFile_init blob) = blob_data blob.
Proof.
  intros Hv Hr.
  assert (forall mode buffering,
             GitFS_openbin self path mode buffering = Ok (GitFile_init blob))
    as E.
  { intros. unfold GitFS_openbin. rewrite Hv. simpl. rewrite Hr. reflexivity. }
  repeat split.
  - apply E.
  - intros q. rewrite E. discriminate.
Qed.

End Facade.

(* ------------------------------------------------------------------ *)
(** ** The properties on the sample repository *)

Lemma scandir_blob_witness :
  _get_obj_by_path sample_fs "/head/LICENSE" = Ok (Blob license_blob) /\
  GitFS_scandir (host := sample_host) sample_fs "/head/LICENSE" None None
    = Raise NotImplementedError /\
  GitFS_listdir (host := sample_host) sample_fs "/head/LICENSE"
    = Raise (DirectoryExpected "/head/LICENSE").
Proof.
  split; [reflexivity|].
  destruct (scandir_blob_raises_NotImplementedError
              (host := sample_host) sample_fs "/head/LICENSE"
              (blob := license_blob) None None eq_refl) as [A [_ B]].
  split; [exact A | exact B].
Defined.

Lemma root_directory_children_witness :
  head_commit (repo sample_fs) = Some sample_commit /\
  GitFS_listdir (host := sample_host) sample_fs "/"
    = Ok [Some "head"; Some "tags"; Some "branches"; Some "remotes";
          Some "objects"] /\
  GitFS_getinfo (host := sample_host) sample_fs "/nosuch" None
    = Raise (ResourceNotFound "nosuch").
Proof.
  split; [reflexivity|].
  destruct (root_directory_children
              (host := sample_host) sample_fs (c := sample_commit) None
              eq_refl) as [_ [L [_ [_ U]]]].
  split; [exact L|].
  apply (U "nosuch"); [reflexivity|].
  simpl. intros [H|[H|[H|[H|[H|H]]]]]; try discriminate H; exact H.
Defined.

Lemma listdir_names_of_scandir_witness :
  _get_obj_by_path sample_fs "/" = Ok (RootDir sample_repo) /\
  defines_scandir (RootDir sample_repo) = true /\
  (forall r, RootDir sample_repo = RootDir r -> head_commit r <> None) /\
  listdir_matches_scandir (host := sample_host) sample_fs "/".
Proof.
  assert (forall r, RootDir sample_repo = RootDir r -> head_commit r <> None)
    as Hh by (intros r H; inversion H; subst; discriminate).
  split; [reflexivity|]. split; [reflexivity|]. split; [exact Hh|].
  destruct (listdir_names_of_scandir
              (host := sample_host) sample_fs "/"
              (obj := RootDir sample_repo) None eq_refl eq_refl Hh)
    as [_ [infos [A [B _]]]].
  exists infos. split; [exact A | exact B].
Defined.

(** C6 (as stated) fails at [/objects]: the path resolves to a node whose
    information says directory, and [listdir] raises [DirectoryExpected]
    instead of returning names.  It fails too at the root of a repository
    without a HEAD commit, where enumeration stops on the first child. *)
Lemma objects_directory_not_listed :
  (resolves_to_directory (host := sample_host) sample_fs "/objects" /\
   GitFS_listdir (host := sample_host) sample_fs "/objects"
     = Raise (DirectoryExpected "/objects") /\
   ~ listdir_matches_scandir (host := sample_host) sample_fs "/objects") /\
  (resolves_to_directory (host := sample_host) empty_fs "/" /\
   GitFS_listdir (host := sample_host) empty_fs "/"
     = Raise (ValueError "HEAD has no commit") /\
   ~ listdir_matches_scandir (host := sample_host) empty_fs "/").
Proof.
  split; (split; [|split]).
  - exists (ObjectsDir "objects" sample_repo). split; reflexivity.
  - reflexivity.
  - intros [infos [_ B]]. vm_compute in B. discriminate B.
  - exists (RootDir empty_repo). split; reflexivity.
  - reflexivity.
  - intros [infos [_ B]]. vm_compute in B. discriminate B.
Qed.

Lemma GitInfo_fields_witness :
  attr_name (attrs_of_blob license_blob) <> "" /\
  info_name (GitInfo_init (host := sample_host)
               (attrs_of_blob license_blob) None) = Some "LICENSE" /\
  attr_name (attrs_of_tree (commit_tree sample_commit)) = "" /\
  info_name (GitInfo_init (host := sample_host)
               (attrs_of_tree (commit_tree sample_commit)) (Some "v1.0"))
    = Some "v1.0" /\
  info_type (GitInfo_init (host := sample_host)
               (attrs_of_tree (commit_tree sample_commit)) (Some "v1.0"))
    = 1%Z.
Proof.
  assert (attr_name (attrs_of_blob license_blob) <> "") as N
      by (simpl; discriminate).
  split; [exact N|].
  destruct (GitInfo_fields (host := sample_host)
              (attrs_of_blob license_blob) None) as [A _].
  split; [exact (A N)|].
  split; [reflexivity|].
  destruct (GitInfo_fields (host := sample_host)
              (attrs_of_tree (commit_tree sample_commit)) (Some "v1.0"))
    as [_ [B [_ [D _]]]].
  split; [exact (B eq_refl) | exact (proj2 (D eq_refl))].
Defined.

(** C9 (as stated) fails on the type number: the descriptor of a directory
    carries 1, not 2, and the descriptor of a file carries 2, not 1. *)
Lemma GitInfo_type_numbers_not_as_stated :
  (info_is_dir (GitInfo_init (host := sample_host)
                  (attrs_of_tree fs_tree) None) = true /\
   info_type (GitInfo_init (host := sample_host)
                (attrs_of_tree fs_tree) None) = 1%Z /\
   info_type (GitInfo_init (host := sample_host)
                (attrs_of_tree fs_tree) None) <> 2%Z) /\
  (info_is_dir (GitInfo_init (host := sample_host)
                  (attrs_of_blob license_blob) None) = false /\
   info_type (GitInfo_init (host := sample_host)
                (attrs_of_blob license_blob) None) = 2%Z /\
   info_type (GitInfo_init (host := sample_host)
                (attrs_of_blob license_blob) None) <> 1%Z).
Proof.
  repeat split; discriminate.
Qed.

Lemma openbin_ignores_mode_witness :
  validatepath (HostFramework := sample_host) "head/LICENSE"
    = Ok "/head/LICENSE" /\
  _get_obj_by_path sample_fs "/head/LICENSE" = Ok (Blob license_blob) /\
  GitFS_openbin (host := sample_host) sample_fs "head/LICENSE" "x" (-1)
    = Ok (GitFile_init license_blob) /\
  GitFS_openbin (host := sample_host) sample_fs "head/LICENSE" "w" 0
    = GitFS_openbin (host := sample_host) sample_fs "head/LICENSE" "r" (-1).
Proof.
  split; [reflexivity|]. split; [reflexivity|].
  destruct (openbin_ignores_mode
              (host := sample_host) sample_fs "head/LICENSE"
              (path' := "/head/LICENSE") (blob := license_blob)
              eq_refl eq_refl) as [I [O _]].
  split; [exact (proj1 (O "x" (-1)%Z)) | exact (I "w" "r" 0%Z (-1)%Z)].
Defined.

(* ------------------------------------------------------------------ *)
(** ** Stripping and splitting *)

Lemma lstrip_slash_head (s r : string) (c : ascii) :
  lstrip_slash s = String c r -> is_slash c = false.
Proof.
  induction s as [|d s IH]; simpl; intro H.
  - discriminate H.
  - destruct (is_slash d) eqn:E; auto. inversion H; subst. exact E.
Qed.

Lemma rstrip_slash_head (s r : string) (c : ascii) :
  rstrip_slash s = String c r -> exists s', s = String c s'.
Proof.
  destruct s as [|d s]; simpl; intro H.
  - discriminate H.
  - destruct (rstrip_slash s).
    + destruct (is_slash d); inversion H; subst; eauto.
    + inversion H; subst; eauto.
Qed.

Lemma strip_slash_head (path r : string) (c : ascii) :
  strip_slash path = String c r -> is_slash c = false.
Proof.
  unfold strip_slash. intro H.
  destruct (rstrip_slash_head _ H) as [s' Hs].
  eapply lstrip_slash_head; eauto.
Qed.

Lemma rstrip_slash_idempotent (s : string) :
  rstrip_slash (rstrip_slash s) = rstrip_slash s.
Proof.
  induction s as [|c s IH]; simpl; auto.
  destruct (rstrip_slash s) as [|d r] eqn:E.
  - destruct (is_slash c) eqn:Ec; simpl; auto. now rewrite Ec.
  - change (rstrip_slash (String c (String d r))) with
      (match rstrip_slash (String d r) with
       | EmptyString =>
           if is_slash c then EmptyString else String c EmptyString
       | x => String c x
       end).
    rewrite IH. reflexivity.
Qed.

Lemma rstrip_slash_app_slash (s : string) :
  rstrip_slash (s ++ "/")%string = rstrip_slash s.
Proof.
  induction s as [|c s IH]; simpl; auto. now rewrite IH.
Qed.

Lemma lstrip_slash_app_slash (s : string) :
  (lstrip_slash (s ++ "/") = lstrip_slash s ++ "/")%string \/
  (lstrip_slash (s ++ "/")%string = "" /\ lstrip_slash s = "").
Proof.
  induction s as [|c s IH]; simpl.
  - right. auto.
  - destruct (is_slash c); auto.
Qed.

Lemma strip_slash_idempotent (path : string) :
  strip_slash (strip_slash path) = strip_slash path.
Proof.
  destruct (strip_slash path) as [|c r] eqn:E; auto.
  pose proof (strip_slash_head _ E) as Hc.
  unfold strip_slash at 1. simpl. rewrite Hc.
  rewrite <- E. unfold strip_slash. apply rstrip_slash_idempotent.
Qed.

Lemma strip_slash_leading (path : string) :
  strip_slash (String "/" path) = strip_slash path.
Proof.
  reflexivity.
Qed.

Lemma strip_slash_trailing (path : string) :
  strip_slash (path ++ "/")%string = strip_slash path.
Proof.
  unfold strip_slash.
  destruct (lstrip_slash_app_slash path) as [H|[H1 H2]].
  - rewrite H. apply rstrip_slash_app_slash.
  - now rewrite H1, H2.
Qed.

Lemma rstrip_slash_app (a b : string) :
  rstrip_slash b = b -> b <> "" ->
  (rstrip_slash (a ++ b) = a ++ b)%string.
Proof.
  intros Hb Hn. induction a as [|c a IH]; simpl; auto.
  rewrite IH. destruct (a ++ b)%string eqn:E; auto.
  destruct a; simpl in E; [contradiction | discriminate].
Qed.

Lemma split_slash_app (a b : string) :
  split_slash (a ++ String "/" b)%string = split_slash a ++ split_slash b.
Proof.
  induction a as [|c a IH]; simpl.
  - reflexivity.
  - rewrite IH. destruct (is_slash c); auto.
    destruct (split_slash a) eqn:E; simpl; auto.
    destruct a; simpl in E; [discriminate|].
    destruct (is_slash a); [discriminate|].
    destruct (split_slash a0); discriminate.
Qed.

Lemma split_slash_not_nil (s : string) : split_slash s <> [].
Proof.
  destruct s as [|c s]; simpl; [discriminate|].
  destruct (is_slash c); [discriminate|].
  destruct (split_slash s); discriminate.
Qed.

Lemma child_path_canonical (path seg : string) :
  is_segment seg = true ->
  strip_slash (child_path path seg) = child_path path seg /\
  truthy (child_path path seg) = true /\
  split_slash (child_path path seg)
    = (if truthy (strip_slash path)
       then split_slash (strip_slash path) else []) ++ [seg].
Proof.
  intro H. apply andb_true_iff in H. destruct H as [Ht Hs].
  apply negb_true_iff in Hs. unfold child_path.
  destruct (strip_slash path) as [|c r] eqn:E.
  - simpl. unfold strip_slash.
    rewrite lstrip_slash_no_slash, rstrip_slash_no_slash; auto.
    split; [reflexivity|]. split; [exact Ht|].
    now apply split_slash_segment.
  - pose proof (strip_slash_head _ E) as Hc.
    split; [|split].
    + unfold strip_slash. simpl. rewrite Hc.
      change (String c (r ++ String "/" seg)%string)
        with (String c r ++ String "/" seg)%string.
      apply rstrip_slash_app; [|discriminate].
      simpl. rewrite rstrip_slash_no_slash; auto.
      destruct seg; [discriminate Ht | reflexivity].
    + reflexivity.
    + rewrite split_slash_app, (split_slash_segment seg Hs). reflexivity.
Qed.

(* ------------------------------------------------------------------ *)
(** ** Further properties of resolution *)

Section Paths.

Context {host : HostFramework}.

Lemma bind_Ok {A} (r : Result A) : (a <- r ;; Ok a) = r.
Proof.
  destruct r; reflexivity.
Qed.

Lemma resolution_depends_on_stripped (self : GitFS) (p q : string) :
  strip_slash p = strip_slash q ->
  _get_obj_by_path self p = _get_obj_by_path self q.
Proof.
  intro H. unfold _get_obj_by_path. now rewrite H.
Qed.

Lemma resolved_walk (self : GitFS) (path : string) (obj : GitObject) :
  _get_obj_by_path self path = Ok obj ->
  walk (RootDir (repo self))
       (if truthy (strip_slash path)
        then split_slash (strip_slash path) else []) = Ok obj.
Proof.
  unfold _get_obj_by_path, try_except.
  destruct (truthy (strip_slash path)); simpl; auto.
  destruct (walk _ _) as [o|e]; auto.
  destruct (is_lookup_failure e); discriminate.
Qed.

(** Resolving the child path is resolving the parent and looking the
    segment up there. *)
Lemma resolve_child (self : GitFS) (path seg : string) (obj : GitObject) :
  is_segment seg = true ->
  _get_obj_by_path self path = Ok obj ->
  _get_obj_by_path self (child_path path seg)
    = try_except (obj_get obj seg) is_lookup_failure
                 (Raise (ResourceNotFound (child_path path seg))).
Proof.
  intros Hseg Hr.
  destruct (child_path_canonical path seg Hseg) as [Hs [Ht Hsp]].
  apply resolved_walk in Hr.
  unfold _get_obj_by_path. rewrite Hs, Ht, Hsp, walk_app, Hr. simpl.
  now rewrite bind_Ok.
Qed.

(** X1: [exists] answers true exactly when [getinfo] returns, false exactly
    when [getinfo] raises [ResourceNotFound], and raises exactly the other
    exceptions of [getinfo]. *)
Theorem exists_agrees_with_getinfo
        (self : GitFS) (path : string) (namespaces : option (list string)) :
  (GitFS_exists self path = Ok true
   <-> exists i, GitFS_getinfo self path namespaces = Ok i) /\
  (GitFS_exists self path = Ok false
   <-> GitFS_getinfo self path namespaces
       = Raise (ResourceNotFound (strip_slash path))) /\
  (forall e : exn,
      GitFS_exists self path = Raise e
      <-> GitFS_getinfo self path namespaces = Raise e /\
          is_ResourceNotFound e = false).
Proof.
  unfold GitFS_exists, GitFS_getinfo.
  destruct (_get_obj_by_path self path) as [obj|e] eqn:R; simpl.
  - split; [|split].
    + split; eauto.
    + split; discriminate.
    + intro e. split; [discriminate | intros [H _]; discriminate H].
  - apply _get_obj_by_path_raises in R. destruct R as [->|[Hg Hl]]; simpl.
    + split; [|split].
      * split; [discriminate | intros [i H]; discriminate H].
      * split; reflexivity.
      * intro e'. split; [discriminate|].
        intros [H1 H2]. inversion H1; subst. discriminate H2.
    + assert (is_ResourceNotFound e = false) as Hn
          by (destruct e; simpl in *; congruence).
      rewrite Hn. split; [|split].
      * split; [discriminate | intros [i H]; discriminate H].
      * split; [discriminate|].
        intro H. inversion H; subst. discriminate Hn.
      * intro e'. split.
        -- intro H. inversion H; subst. split; auto.
        -- intros [H _]. inversion H; subst. reflexivity.
Qed.

(** X2: separators around a path do not matter: a leading one, a trailing
    one, or all of them stripped, give the same node, the same [exists] and
    the same [getinfo]. *)
Theorem outer_separators_ignored
        (self : GitFS) (path : string) (namespaces : option (list string)) :
  _get_obj_by_path self (String "/" path) = _get_obj_by_path self path /\
  _get_obj_by_path self (path ++ "/") = _get_obj_by_path self path /\
  _get_obj_by_path self (strip_slash path) = _get_obj_by_path self path /\
  GitFS_exists self (String "/" path) = GitFS_exists self path /\
  GitFS_exists self (path ++ "/") = GitFS_exists self path /\
  GitFS_getinfo self (String "/" path) namespaces
    = GitFS_getinfo self path namespaces /\
  GitFS_getinfo self (path ++ "/") namespaces
    = GitFS_getinfo self path namespaces.
Proof.
  assert (_get_obj_by_path self (String "/" path)
          = _get_obj_by_path self path) as A
      by (apply resolution_depends_on_stripped, strip_slash_leading).
  assert (_get_obj_by_path self (path ++ "/") = _get_obj_by_path self path)
    as B by (apply resolution_depends_on_stripped, strip_slash_trailing).
  assert (_get_obj_by_path self (strip_slash path)
          = _get_obj_by_path self path) as C
      by (apply resolution_depends_on_stripped, strip_slash_idempotent).
  unfold GitFS_exists, GitFS_getinfo. rewrite A, B, C. repeat split.
Qed.

(** X3: nothing exists below a file: when a path resolves to a blob, the
    path of any child segment is reported missing by every reading
    operation. *)
Theorem nothing_below_a_blob
        (self : GitFS) (path seg : string) (blob : RawBlob)
        (namespaces : option (list string)) (page : option (nat * nat)) :
  _get_obj_by_path self path = Ok (Blob blob) ->
  is_segment seg = true ->
  GitFS_exists self (child_path path seg) = Ok false /\
  GitFS_getinfo self (child_path path seg) namespaces
    = Raise (ResourceNotFound (child_path path seg)) /\
  GitFS_listdir self (child_path path seg)
    = Raise (ResourceNotFound (child_path path seg)) /\
  GitFS_scandir self (child_path path seg) namespaces page
    = Raise (ResourceNotFound (child_path path seg)).
Proof.
  intros Hr Hseg.
  pose proof (resolve_child self path seg Hseg Hr) as R. simpl in R.
  unfold GitFS_exists, GitFS_getinfo, GitFS_listdir, GitFS_scandir.
  rewrite R. repeat split.
Qed.

(** X4: the root is reached by the empty path only: a path resolves to a
    root node exactly when nothing is left of it once stripped, and that
    node is the root of the facade's own repository. *)
Theorem root_only_by_empty_path (self : GitFS) (path : string) (r : Repo) :
  _get_obj_by_path self path = Ok (RootDir r)
  <-> strip_slash path = "" /\ r = repo self.
Proof.
  split.
  - intro H. split; [|eapply resolved_root_is_own; eauto].
    apply resolved_walk in H.
    destruct (strip_slash path) as [|c s] eqn:E; auto. cbn [truthy] in H.
    apply walk_root_only_at_start in H. destruct H as [H _].
    exfalso. exact (split_slash_not_nil _ H).
  - intros [H ->]. unfold _get_obj_by_path. rewrite H. reflexivity.
Qed.

End Paths.

(* ------------------------------------------------------------------ *)
(** ** Failures outside the objects directory *)

Section Failures.

Context {host : HostFramework}.

Lemma obj_get_below_root (obj : GitObject) (name : string) :
  below_root obj = true ->
  (exists o, obj_get obj name = Ok o /\ below_root o = true) \/
  (exists e, obj_get obj name = Raise e /\ is_lookup_failure e = true).
Proof.
  destruct obj as [b|n c t|n refs|n rems|n r|r]; simpl; intro H;
    try discriminate H.
  - right. eexists; split; reflexivity.
  - unfold TreeDir_get, tree_getitem.
    destruct (find _ (tree_entries t)) as [[b|t']|]; simpl;
      [left|left|right]; eexists; split; reflexivity.
  - unfold RefsDir_get, il_getitem.
    destruct (find _ (il_items refs)); simpl; [left|right];
      eexists; split; reflexivity.
  - unfold RemotesDir_get, il_getitem.
    destruct (find _ (il_items rems)); simpl; [left|right];
      eexists; split; reflexivity.
Qed.

Lemma walk_below_root (parts : list string) : forall obj : GitObject,
  below_root obj = true ->
  (exists o, walk obj parts = Ok o /\ below_root o = true) \/
  (exists e, walk obj parts = Raise e /\ is_lookup_failure e = true).
Proof.
  induction parts as [|p ps IH]; simpl; intros obj H.
  - left. eauto.
  - destruct (obj_get_below_root obj p H) as [[o [G Ho]]|[e [G He]]];
      rewrite G; simpl; eauto.
Qed.

Lemma RootDir_get_known (r : Repo) (c : Commit) (name : string) :
  head_commit r = Some c ->
  name <> "objects" ->
  (exists o, obj_get (RootDir r) name = Ok o /\ below_root o = true) \/
  (exists e, obj_get (RootDir r) name = Raise e /\ is_lookup_failure e = true).
Proof.
  intros Hh Hn. simpl. unfold RootDir_get, dict_getitem, children.
  cbn [find fst].
  destruct (String.eqb_spec "head" name);
    [cbn [snd bind]; rewrite Hh; left; eexists; split; reflexivity|].
  destruct (String.eqb_spec "tags" name);
    [left; eexists; split; reflexivity|].
  destruct (String.eqb_spec "branches" name);
    [left; eexists; split; reflexivity|].
  destruct (String.eqb_spec "remotes" name);
    [left; eexists; split; reflexivity|].
  destruct (String.eqb_spec "objects" name); [congruence|].
  right. eexists; split; reflexivity.
Qed.

(** With a HEAD commit and a first segment other than "objects",
    resolution returns a node or raises [ResourceNotFound]. *)
Lemma resolution_typed (self : GitFS) (c : Commit) (path : string) :
  head_commit (repo self) = Some c ->
  first_segment path <> "objects" ->
  _get_obj_by_path self path = Raise (ResourceNotFound (strip_slash path)) \/
  (exists obj, _get_obj_by_path self path = Ok obj /\
               (below_root obj = true \/ obj = RootDir (repo self))).
Proof.
  intros Hh Hf. unfold _get_obj_by_path, first_segment in *.
  destruct (truthy (strip_slash path));
    [|right; eexists; split; [reflexivity | now right]].
  destruct (split_slash (strip_slash path)) as [|p ps] eqn:E.
  - right. eexists; split; [reflexivity | now right].
  - simpl in Hf. cbn [walk].
    destruct (RootDir_get_known (repo self) Hh Hf)
      as [[o [G Ho]]|[e [G He]]]; rewrite G; simpl.
    + destruct (walk_below_root ps o Ho) as [[o' [W Ho']]|[e [W He]]];
        rewrite W; simpl; [right; eauto | rewrite He; now left].
    + rewrite He. now left.
Qed.

(** X5: in a repository with a HEAD commit, on a path whose first segment
    is not "objects": [exists] always answers; [getinfo] raises nothing but
    [ResourceNotFound]; [listdir] nothing but [ResourceNotFound] or
    [DirectoryExpected]; [openbin], once the host has validated the path,
    nothing but [ResourceNotFound] or [FileExpected]. *)
Theorem failures_typed_outside_objects
        (self : GitFS) (c : Commit) (path : string)
        (namespaces : option (list string)) :
  head_commit (repo self) = Some c ->
  first_segment path <> "objects" ->
  (exists b, GitFS_exists self path = Ok b) /\
  (forall e, GitFS_getinfo self path namespaces = Raise e ->
             e = ResourceNotFound (strip_slash path)) /\
  (forall e, GitFS_listdir self path = Raise e ->
             e = ResourceNotFound (strip_slash path) \/
             e = DirectoryExpected path) /\
  (forall (path0 mode : string) (buffering : Z) (e : exn),
      validatepath path0 = Ok path ->
      GitFS_openbin self path0 mode buffering = Raise e ->
      e = ResourceNotFound (strip_slash path) \/ e = FileExpected path).
Proof.
  intros Hh Hf.
  destruct (resolution_typed self path Hh Hf) as [R|[obj [R Ho]]].
  - unfold GitFS_exists, GitFS_getinfo, GitFS_listdir, GitFS_openbin.
    rewrite R. simpl. repeat split.
    + eauto.
    + intros e H. now inversion H.
    + intros e H. inversion H. now left.
    + intros path0 mode buffering e Hv. rewrite Hv. simpl. rewrite R. simpl.
      intro H. inversion H. now left.
  - unfold GitFS_exists, GitFS_getinfo, GitFS_listdir, GitFS_openbin.
    rewrite R. simpl. repeat split.
    + eauto.
    + discriminate.
    + intros e. destruct Ho as [Ho| ->].
      * destruct obj; simpl in *; try discriminate;
          intro H; inversion H; now right.
      * simpl. unfold RootDir_scandir, children. cbn [scan_items].
        rewrite Hh. simpl. discriminate.
    + intros path0 mode buffering e Hv. rewrite Hv. simpl. rewrite R.
      destruct Ho as [Ho| ->]; [destruct obj|]; simpl in *;
        try discriminate; intro H; inversion H; now right.
Qed.

End Failures.

(* ------------------------------------------------------------------ *)
(** ** Listing and lookup *)

Section Listing.

Context {host : HostFramework}.

Lemma info_name_of_entry (e : GitEntry) :
  info_name (GitInfo_init (attrs_of_entry e) None)
    = if truthy (entry_name e) then Some (entry_name e) else None.
Proof.
  destruct e; reflexivity.
Qed.

Lemma TreeDir_listed_names (tree : RawTree) (nm : string) :
  In (Some nm) (map info_name (yielded (TreeDir_scandir tree)))
  <-> nm <> "" /\ exists e, In e (tree_entries tree) /\ entry_name e = nm.
Proof.
  unfold TreeDir_scandir, trees, blobs. simpl.
  destruct (scandir_entries_by_type (tree_entries tree)) as [-> ->].
  rewrite map_app, in_app_iff, !in_map_iff. split.
  - intros [[i [Hi H]]|[i [Hi H]]]; apply in_map_iff in H;
      destruct H as [e [<- He]]; apply filter_In in He; destruct He as [He _];
      rewrite info_name_of_entry in Hi;
      destruct (entry_name e) eqn:En; simpl in Hi; try discriminate Hi;
      inversion Hi; subst; (split; [discriminate | eauto]).
  - intros [Hn [e [He En]]].
    assert (info_name (GitInfo_init (attrs_of_entry e) None) = Some nm) as Hi.
    { rewrite info_name_of_entry, En. destruct nm; [contradiction|reflexivity]. }
    destruct e as [b|t]; [right|left];
      (eexists; split; [exact Hi|]);
      apply (in_map (fun e => GitInfo_init (attrs_of_entry e) None)),
            filter_In; auto.
Qed.

Lemma tree_getitem_found (tree : RawTree) (nm : string) :
  (exists e, tree_getitem tree nm = Ok e)
  <-> exists e, In e (tree_entries tree) /\ entry_name e = nm.
Proof.
  unfold tree_getitem. split.
  - intros [e H].
    destruct (find _ (tree_entries tree)) as [e'|] eqn:F; [|discriminate H].
    apply find_some in F. destruct F as [Hin Heq].
    apply String.eqb_eq in Heq. eauto.
  - intros [e [Hin Heq]].
    destruct (find _ (tree_entries tree)) as [e'|] eqn:F; eauto.
    exfalso. apply (find_none _ _ F) in Hin.
    apply String.eqb_neq in Hin. contradiction.
Qed.

Lemma TreeDir_get_found (commit : Commit) (tree : RawTree) (nm : string) :
  (exists child, TreeDir_get commit tree nm = Ok child)
  <-> exists e, In e (tree_entries tree) /\ entry_name e = nm.
Proof.
  rewrite <- tree_getitem_found. unfold TreeDir_get. split.
  - intros [child H]. destruct (tree_getitem tree nm); eauto. discriminate H.
  - intros [e H]. rewrite H. destruct e; simpl; eauto.
Qed.

Lemma TreeDir_get_info_name
      (commit : Commit) (tree : RawTree) (nm : string) (child : GitObject)
      (ns : option (list string)) :
  nm <> "" ->
  TreeDir_get commit tree nm = Ok child ->
  info_name (obj_getinfo child ns) = Some nm.
Proof.
  intros Hn. unfold TreeDir_get, tree_getitem.
  destruct (find _ (tree_entries tree)) as [e|] eqn:F; [|discriminate].
  apply find_some in F. destruct F as [_ Heq]. apply String.eqb_eq in Heq.
  destruct e as [b|t]; simpl in *; intro H; injection H as <-;
    unfold GitInfo_init; simpl; rewrite Heq;
    (destruct nm; [contradiction|reflexivity]).
Qed.

(** X6: in a tree directory, listing and existence agree: a segment is
    among the names [listdir] returns exactly when [exists] holds for the
    child path, and then [getinfo] of the child carries that name. *)
Theorem tree_listing_matches_existence
        (self : GitFS) (path : string) (name : string) (commit : Commit)
        (tree : RawTree) (names : list (option string)) (seg : string)
        (namespaces : option (list string)) :
  _get_obj_by_path self path = Ok (TreeDir name commit tree) ->
  GitFS_listdir self path = Ok names ->
  is_segment seg = true ->
  (In (Some seg) names
   <-> GitFS_exists self (child_path path seg) = Ok true) /\
  (In (Some seg) names ->
   exists i, GitFS_getinfo self (child_path path seg) namespaces = Ok i /\
             info_name i = Some seg).
Proof.
  intros Hr Hl Hseg.
  pose proof (resolve_child self path seg Hseg Hr) as R. simpl in R.
  assert (seg <> "") as Hne.
  { apply andb_true_iff in Hseg. destruct Hseg as [Ht _].
    destruct seg; [discriminate Ht | discriminate]. }
  unfold GitFS_listdir in Hl. rewrite Hr in Hl. simpl in Hl.
  inversion Hl; subst names; clear Hl.
  change (map info_name
            (map (fun t => GitInfo_init (attrs_of_tree t) None) (trees tree) ++
             map (fun b => GitInfo_init (attrs_of_blob b) None) (blobs tree)))
    with (map info_name (yielded (TreeDir_scandir tree))).
  rewrite TreeDir_listed_names.
  unfold GitFS_exists, GitFS_getinfo. rewrite R. split; [split|].
  - intros [_ He]. apply (TreeDir_get_found commit) in He.
    destruct He as [child ->]. reflexivity.
  - intro H. split; auto. apply (TreeDir_get_found commit).
    destruct (TreeDir_get commit tree seg) as [child|e]; eauto.
    simpl in H. destruct (is_lookup_failure e); simpl in H;
      [discriminate H|]. destruct (is_ResourceNotFound e); discriminate H.
  - intros [_ He]. apply (TreeDir_get_found commit) in He.
    destruct He as [child Hc]. rewrite Hc. simpl.
    eexists. split; [reflexivity|].
    eapply TreeDir_get_info_name; eauto.
Qed.

Lemma find_unique_name (es : list GitEntry) (e : GitEntry) :
  NoDup (map entry_name es) ->
  In e es ->
  find (fun x => String.eqb (entry_name x) (entry_name e)) es = Some e.
Proof.
  induction es as [|x es IH]; simpl; intros Hnd Hin; [contradiction|].
  inversion Hnd as [|? ? Hx Hnd']; subst.
  destruct Hin as [->|Hin].
  - now rewrite String.eqb_refl.
  - destruct (String.eqb_spec (entry_name x) (entry_name e)) as [E|E].
    + exfalso. apply Hx. rewrite E. now apply in_map.
    + now apply IH.
Qed.

(** X7: in a tree whose entry names are distinct, [getinfo] of a child
    returns the very record that [scandir] of the directory yields for
    that entry. *)
Theorem child_info_is_scandir_record
        (self : GitFS) (path : string) (name : string) (commit : Commit)
        (tree : RawTree) (e : GitEntry) (namespaces : option (list string)) :
  _get_obj_by_path self path = Ok (TreeDir name commit tree) ->
  NoDup (map entry_name (tree_entries tree)) ->
  In e (tree_entries tree) ->
  is_segment (entry_name e) = true ->
  GitFS_getinfo self (child_path path (entry_name e)) namespaces
    = Ok (GitInfo_init (attrs_of_entry e) None) /\
  exists g, GitFS_scandir self path namespaces None = Ok g /\
            In (GitInfo_init (attrs_of_entry e) None) (yielded g).
Proof.
  intros Hr Hnd Hin Hseg.
  pose proof (resolve_child self path (entry_name e) Hseg Hr) as R.
  simpl in R. unfold TreeDir_get, tree_getitem in R.
  rewrite (find_unique_name _ e Hnd Hin) in R. simpl in R.
  split.
  - unfold GitFS_getinfo. rewrite R. destruct e as [b|t]; simpl.
    + reflexivity.
    + unfold GitInfo_init. simpl.
      apply andb_true_iff in Hseg. destruct Hseg as [Ht _]. simpl in Ht.
      destruct (tree_name t); [discriminate Ht | reflexivity].
  - unfold GitFS_scandir. rewrite Hr. simpl. eexists. split; [reflexivity|].
    simpl. unfold trees, blobs.
    destruct (scandir_entries_by_type (tree_entries tree)) as [-> ->].
    apply in_app_iff.
    destruct e as [b|t]; [right|left];
      apply (in_map (fun e => GitInfo_init (attrs_of_entry e) None)),
            filter_In; auto.
Qed.

End Listing.

(* ------------------------------------------------------------------ *)
(** ** Refs, remotes and the root *)

Section Collections.

Context {host : HostFramework}.

Lemma il_getitem_found {A} (id : A -> string) (l : IterableList A)
      (nm : string) :
  (exists x, il_getitem id l nm = Ok x)
  <-> exists x, In x (il_items l) /\ id x = (il_prefix l ++ nm)%string.
Proof.
  unfold il_getitem. split.
  - intros [x H].
    destruct (find _ (il_items l)) as [x'|] eqn:F; [|discriminate H].
    apply find_some in F. destruct F as [Hin Heq].
    apply String.eqb_eq in Heq. eauto.
  - intros [x [Hin Heq]].
    destruct (find _ (il_items l)) as [x'|] eqn:F; eauto.
    exfalso. apply (find_none _ _ F) in Hin.
    apply String.eqb_neq in Hin. contradiction.
Qed.

(** X8: below a ref collection (tags, branches, the refs of a remote) a
    segment exists exactly when some ref is named prefix plus segment;
    what [getinfo] then describes is a directory carrying the segment as
    its name, and a missing ref is reported as [ResourceNotFound]. *)
Theorem ref_path_exists_iff_ref_named
        (self : GitFS) (path name : string) (refs : IterableList Ref)
        (seg : string) (namespaces : option (list string)) :
  _get_obj_by_path self path = Ok (RefsDir name refs) ->
  is_segment seg = true ->
  (GitFS_exists self (child_path path seg) = Ok true
   <-> exists r, In r (il_items refs) /\
                 ref_name r = (il_prefix refs ++ seg)%string) /\
  (forall i, GitFS_getinfo self (child_path path seg) namespaces = Ok i ->
             info_name i = Some seg /\ info_is_dir i = true) /\
  ((forall r, In r (il_items refs) ->
              ref_name r <> (il_prefix refs ++ seg)%string) ->
   GitFS_getinfo self (child_path path seg) namespaces
     = Raise (ResourceNotFound (child_path path seg))).
Proof.
  intros Hr Hseg.
  pose proof (resolve_child self path seg Hseg Hr) as R. simpl in R.
  unfold GitFS_exists, GitFS_getinfo. rewrite R. unfold RefsDir_get.
  split; [|split].
  - rewrite <- (il_getitem_found ref_name). split.
    + destruct (il_getitem ref_name refs seg) as [r|e] eqn:G; eauto.
      unfold il_getitem in G. destruct (find _ (il_items refs));
        inversion G; subst. simpl. discriminate.
    + intros [r ->]. reflexivity.
  - intro i. destruct (il_getitem ref_name refs seg) as [r|e] eqn:G; simpl.
    + intro H. inversion H; subst. split; reflexivity.
    + unfold il_getitem in G. destruct (find _ (il_items refs));
        inversion G; subst. simpl. discriminate.
  - intro Hno. unfold il_getitem.
    destruct (find _ (il_items refs)) as [r|] eqn:F; [|reflexivity].
    apply find_some in F. destruct F as [Hin Heq].
    apply String.eqb_eq in Heq. exfalso. exact (Hno r Hin Heq).
Qed.

Lemma RemotesDir_listed_names (rems : IterableList Remote) (nm : string) :
  In (Some nm) (map info_name (yielded (RemotesDir_scandir rems)))
  <-> nm <> "" /\ exists r, In r (il_items rems) /\ remote_name r = nm.
Proof.
  unfold RemotesDir_scandir. simpl. rewrite map_map, in_map_iff.
  unfold GitInfo_init. simpl. split.
  - intros [r [Hi Hin]]. destruct (remote_name r) eqn:E; simpl in Hi;
      inversion Hi; subst. split; [discriminate | eauto].
  - intros [Hn [r [Hin E]]]. exists r. split; auto. rewrite E.
    destruct nm; [contradiction | reflexivity].
Qed.

(** X9: in the remotes directory (a collection without prefix), listing
    and existence agree: a segment is among the names [listdir] returns
    exactly when [exists] holds for the child path. *)
Theorem remotes_listing_matches_existence
        (self : GitFS) (path name : string) (rems : IterableList Remote)
        (names : list (option string)) (seg : string) :
  _get_obj_by_path self path = Ok (RemotesDir name rems) ->
  il_prefix rems = "" ->
  GitFS_listdir self path = Ok names ->
  is_segment seg = true ->
  (In (Some seg) names
   <-> GitFS_exists self (child_path path seg) = Ok true).
Proof.
  intros Hr Hp Hl Hseg.
  pose proof (resolve_child self path seg Hseg Hr) as R. simpl in R.
  assert (seg <> "") as Hne.
  { apply andb_true_iff in Hseg. destruct Hseg as [Ht _].
    destruct seg; [discriminate Ht | discriminate]. }
  assert (GitFS_listdir self path
          = Ok (map info_name (yielded (RemotesDir_scandir rems)))) as L
      by (unfold GitFS_listdir; rewrite Hr; reflexivity).
  assert (names = map info_name (yielded (RemotesDir_scandir rems))) as ->
      by congruence.
  rewrite RemotesDir_listed_names.
  unfold GitFS_exists. rewrite R. unfold RemotesDir_get.
  assert ((exists r, il_getitem remote_name rems seg = Ok r)
          <-> exists r, In r (il_items rems) /\ remote_name r = seg) as F.
  { rewrite il_getitem_found, Hp. reflexivity. }
  split.
  - intros [_ He]. apply F in He. destruct He as [r ->]. reflexivity.
  - intro H. split; auto. apply F.
    destruct (il_getitem remote_name rems seg) as [r|e] eqn:G; eauto.
    unfold il_getitem in G. destruct (find _ (il_items rems));
      inversion G; subst. simpl in H. discriminate H.
Qed.

(** X10: in a repository with a HEAD commit every name listed at the root
    exists, and [getinfo] describes it as a directory of that name. *)
Theorem root_children_exist
        (self : GitFS) (c : Commit) (name : string)
        (namespaces : option (list string)) :
  head_commit (repo self) = Some c ->
  In name root_names ->
  GitFS_exists self (String "/" name) = Ok true /\
  exists i, GitFS_getinfo self (String "/" name) namespaces = Ok i /\
            info_name i = Some name /\ info_is_dir i = true.
Proof.
  intros Hh Hin. unfold root_names in Hin. simpl in Hin.
  destruct Hin as [<-|[<-|[<-|[<-|[<-|[]]]]]];
    unfold GitFS_exists, GitFS_getinfo, _get_obj_by_path; cbn;
    rewrite ?Hh; cbn; (split; [reflexivity|]);
    eexists; (split; [reflexivity|]); split; reflexivity.
Qed.

(** X11: two directories showing the same tree of the same commit have the
    same children, whatever names they carry themselves: a child path
    below one resolves to a node exactly when the corresponding path below
    the other resolves to that node. *)
Theorem same_tree_same_children
        (self : GitFS) (p1 p2 n1 n2 : string) (commit : Commit)
        (tree : RawTree) (seg : string) (namespaces : option (list string)) :
  _get_obj_by_path self p1 = Ok (TreeDir n1 commit tree) ->
  _get_obj_by_path self p2 = Ok (TreeDir n2 commit tree) ->
  is_segment seg = true ->
  (forall o, _get_obj_by_path self (child_path p1 seg) = Ok o
             <-> _get_obj_by_path self (child_path p2 seg) = Ok o) /\
  GitFS_exists self (child_path p1 seg)
    = GitFS_exists self (child_path p2 seg) /\
  (forall i, GitFS_getinfo self (child_path p1 seg) namespaces = Ok i
             <-> GitFS_getinfo self (child_path p2 seg) namespaces = Ok i).
Proof.
  intros H1 H2 Hseg.
  pose proof (resolve_child self p1 seg Hseg H1) as R1.
  pose proof (resolve_child self p2 seg Hseg H2) as R2.
  simpl in R1, R2. unfold GitFS_exists, GitFS_getinfo. rewrite R1, R2.
  destruct (TreeDir_get commit tree seg) as [o|e]; simpl.
  - repeat split; auto.
  - destruct (is_lookup_failure e); simpl;
      repeat split; intros; try discriminate; auto.
Qed.

End Collections.

(* ------------------------------------------------------------------ *)
(** ** Paging, kinds and streams *)

Lemma firstn_plus {A} (n m : nat) : forall l : list A,
  firstn (n + m) l = firstn n l ++ firstn m (skipn n l).
Proof.
  induction n as [|n IH]; intros [|x l]; simpl; auto.
  - now rewrite firstn_nil.
  - now rewrite IH.
Qed.

Lemma pages_concatenate {A} (l : list A) (a b c : nat) :
  a <= b -> b <= c ->
  firstn (b - a) (skipn a l) ++ firstn (c - b) (skipn b l)
    = firstn (c - a) (skipn a l).
Proof.
  intros Hab Hbc.
  replace (c - a) with ((b - a) + (c - b)) by lia.
  rewrite firstn_plus, skipn_skipn.
  replace (b - a + a) with b by lia. reflexivity.
Qed.

Lemma islice_of_complete {A} (g : Gen A) (start stop : nat) :
  finish g = None ->
  islice g start stop
    = mkGen (firstn (stop - start) (skipn start (yielded g))) None.
Proof.
  intro H. unfold islice. rewrite H. now destruct (Nat.ltb _ _).
Qed.

Section Kinds.

Context {host : HostFramework}.

(** X12: on a directory that enumerates, a page [(a, b)] of [scandir] is
    the slice from [a] up to [b] of the full scan; the page from 0 to the
    number of children is the full scan, a page starting past the end is
    empty, and consecutive pages put end to end give the page spanning
    both. *)
Theorem scandir_pages
        (self : GitFS) (path : string) (obj : GitObject)
        (namespaces : option (list string)) :
  _get_obj_by_path self path = Ok obj ->
  defines_scandir obj = true ->
  (forall r, obj = RootDir r -> head_commit r <> None) ->
  exists infos,
    GitFS_scandir self path namespaces None = Ok (mkGen infos None) /\
    (forall a b,
        GitFS_scandir self path namespaces (Some (a, b))
          = Ok (mkGen (firstn (b - a) (skipn a infos)) None)) /\
    GitFS_scandir self path namespaces (Some (0, length infos))
      = Ok (mkGen infos None) /\
    (forall a b, length infos <= a ->
        GitFS_scandir self path namespaces (Some (a, b)) = Ok (mkGen [] None)) /\
    (forall a b c pa pb pc,
        a <= b -> b <= c ->
        GitFS_scandir self path namespaces (Some (a, b)) = Ok pa ->
        GitFS_scandir self path namespaces (Some (b, c)) = Ok pb ->
        GitFS_scandir self path namespaces (Some (a, c)) = Ok pc ->
        yielded pa ++ yielded pb = yielded pc).
Proof.
  intros Hr Hd Hh.
  destruct (obj_scandir_completes Hd Hh) as [infos Hs].
  exists infos.
  assert (forall a b,
             GitFS_scandir self path namespaces (Some (a, b))
             = Ok (mkGen (firstn (b - a) (skipn a infos)) None)) as P.
  { intros a b. unfold GitFS_scandir. rewrite Hr. simpl. rewrite Hs. simpl.
    now rewrite islice_of_complete. }
  split; [|split; [exact P|split; [|split]]].
  - unfold GitFS_scandir. rewrite Hr. simpl. now rewrite Hs.
  - rewrite P. simpl. now rewrite Nat.sub_0_r, firstn_all.
  - intros a b Hlen. rewrite P. rewrite skipn_all2; auto.
    now rewrite firstn_nil.
  - intros a b c pa pb pc Hab Hbc. rewrite !P.
    intros Ha Hb Hc. inversion Ha; inversion Hb; inversion Hc; simpl.
    now apply pages_concatenate.
Qed.

(** X13: what [getinfo] says about the kind decides the other operations:
    where it reports a file, the path resolves to a blob, [listdir] raises
    [DirectoryExpected] and [openbin] opens that blob; where it reports a
    directory, [openbin] raises [FileExpected]; and the type number
    follows the kind. *)
Theorem kind_decides_operations
        (self : GitFS) (path : string) (namespaces : option (list string))
        (i : GitInfo) :
  GitFS_getinfo self path namespaces = Ok i ->
  (info_is_dir i = false ->
   exists blob,
     _get_obj_by_path self path = Ok (Blob blob) /\
     GitFS_listdir self path = Raise (DirectoryExpected path) /\
     forall (path0 mode : string) (buffering : Z),
       validatepath path0 = Ok path ->
       GitFS_openbin self path0 mode buffering = Ok (GitFile_init blob)) /\
  (info_is_dir i = true ->
   forall (path0 mode : string) (buffering : Z),
     validatepath path0 = Ok path ->
     GitFS_openbin self path0 mode buffering = Raise (FileExpected path)) /\
  info_type i = (if info_is_dir i
                 then ResourceType.directory else ResourceType.file).
Proof.
  unfold GitFS_getinfo, GitFS_listdir, GitFS_openbin.
  destruct (_get_obj_by_path self path) as [obj|e] eqn:R; simpl;
    [|discriminate].
  intro H. injection H as <-.
  destruct obj as [b|n c t|n refs|n rems|n r|r]; simpl;
    (split; [|split]); try discriminate; try reflexivity;
    try (intros _ path0 mode buffering Hv; rewrite Hv; simpl; rewrite R;
         reflexivity).
  intros _. exists b. repeat split.
  intros path0 mode buffering Hv. rewrite Hv. simpl. rewrite R. reflexivity.
Qed.

(** X14: reading an opened file to the end returns the bytes of the blob;
    a second read returns nothing; a first read of [n] bytes followed by a
    read of the rest returns the bytes in two parts; and after seeking
    back to 0 the whole content is read again. *)
Theorem open_then_read
        (self : GitFS) (path0 path mode : string) (buffering : Z)
        (blob : RawBlob) (n : nat) :
  validatepath path0 = Ok path ->
  _get_obj_by_path self path = Ok (Blob blob) ->
  exists f,
    GitFS_openbin self path0 mode buffering = Ok f /\
    fst (BytesIO_read f None) = Ok (blob_data blob) /\
    fst (BytesIO_read (snd (BytesIO_read f None)) None) = Ok [] /\
    (exists part rest,
        fst (BytesIO_read f (Some n)) = Ok part /\
        fst (BytesIO_read (snd (BytesIO_read f (Some n))) None) = Ok rest /\
        part ++ rest = blob_data blob /\
        length part = Nat.min n (length (blob_data blob))) /\
    fst (BytesIO_read
           (snd (BytesIO_seek (snd (BytesIO_read f None)) 0)) None)
      = Ok (blob_data blob).
Proof.
  intros Hv Hr. exists (GitFile_init blob).
  split; [unfold GitFS_openbin; rewrite Hv; simpl; rewrite Hr; reflexivity|].
  unfold BytesIO_read, BytesIO_seek, GitFile_init. simpl.
  split; [reflexivity|]. split.
  - now rewrite skipn_all.
  - split; [|reflexivity].
    exists (firstn n (blob_data blob)), (skipn n (blob_data blob)).
    split; [reflexivity|]. split; [|split].
    + rewrite length_firstn. f_equal.
      destruct (Nat.min_spec n (length (blob_data blob))) as [[H ->]|[H ->]].
      * reflexivity.
      * now rewrite !skipn_all2 by lia.
    + apply firstn_skipn.
    + apply length_firstn.
Qed.

End Kinds.

(** X15: the opener builds the facade from the resource of the parsed URL
    alone: the URL text, the [writeable] and [create] flags and the working
    directory change nothing, and a facade opened with [writeable] set
    still refuses [makedir] and [remove] with [ResourceReadOnly] and
    declares itself read-only in its metadata. *)
Theorem open_fs_uses_resource_only
        (Repo_open : string -> Result Repo)
        (fs_url fs_url' : string) (parse_result : ParseResult)
        (writeable writeable' create create' : bool) (cwd cwd' : string) :
  open_fs Repo_open fs_url parse_result writeable create cwd
    = open_fs Repo_open fs_url' parse_result writeable' create' cwd' /\
  (forall e, Repo_open (resource parse_result) = Raise e ->
             open_fs Repo_open fs_url parse_result writeable create cwd
               = Raise e) /\
  (forall fs,
      open_fs Repo_open fs_url parse_result true create cwd = Ok fs ->
      repo_path fs = resource parse_result /\
      Repo_open (resource parse_result) = Ok (repo fs) /\
      (forall path perms recreate,
          fst (GitFS_makedir fs path perms recreate)
            = Raise (ResourceReadOnly path)) /\
      (forall path, fst (GitFS_remove fs path)
                      = Raise (ResourceReadOnly path)) /\
      dict_getitem (GitFS_getmeta fs "standard") "read_only"
        = Ok (MetaBool true) /\
      (forall ns, ns <> "standard" -> GitFS_getmeta fs ns = [])).
Proof.
  unfold open_fs, GitFS_init. split; [reflexivity|]. split.
  - intros e ->. reflexivity.
  - intros fs. destruct (Repo_open (resource parse_result)) as [r|e];
      simpl; [|discriminate].
    intro H. injection H as <-. simpl. repeat split.
    intros ns Hns. unfold GitFS_getmeta.
    apply String.eqb_neq in Hns. now rewrite Hns.
Qed.

(* ------------------------------------------------------------------ *)
(** ** The further properties on the sample repository *)

Lemma nothing_below_a_blob_witness :
  _get_obj_by_path sample_fs "/head/LICENSE" = Ok (Blob license_blob) /\
  is_segment "x" = true /\
  GitFS_exists sample_fs "head/LICENSE/x" = Ok false.
Proof.
  split; [reflexivity|]. split; [reflexivity|].
  exact (proj1 (nothing_below_a_blob
                  (host := sample_host) sample_fs "/head/LICENSE" "x"
                  (blob := license_blob) None None eq_refl eq_refl)).
Defined.

Lemma failures_typed_outside_objects_witness :
  head_commit (repo sample_fs) = Some sample_commit /\
  first_segment "/head/nosuch" <> "objects" /\
  forall e, GitFS_getinfo (host := sample_host) sample_fs "/head/nosuch" None
              = Raise e ->
            e = ResourceNotFound "head/nosuch".
Proof.
  assert (first_segment "/head/nosuch" <> "objects") as N
      by (vm_compute; discriminate).
  split; [reflexivity|]. split; [exact N|].
  exact (proj1 (proj2 (failures_typed_outside_objects
                         (host := sample_host) sample_fs
                         (c := sample_commit) "/head/nosuch" None
                         eq_refl N))).
Defined.

Lemma tree_listing_matches_existence_witness :
  _get_obj_by_path sample_fs "/head"
    = Ok (TreeDir "head" sample_commit (commit_tree sample_commit)) /\
  GitFS_listdir (host := sample_host) sample_fs "/head"
    = Ok [Some "fs"; Some "tests"; Some "LICENSE"; Some "README.md"] /\
  is_segment "fs" = true /\
  (In (Some "fs") [Some "fs"; Some "tests"; Some "LICENSE"; Some "README.md"]
   <-> GitFS_exists sample_fs "head/fs" = Ok true).
Proof.
  split; [reflexivity|]. split; [reflexivity|]. split; [reflexivity|].
  exact (proj1 (tree_listing_matches_existence
                  (host := sample_host) sample_fs "/head"
                  (name := "head") (commit := sample_commit)
                  (tree := commit_tree sample_commit)
                  (names := [Some "fs"; Some "tests"; Some "LICENSE";
                             Some "README.md"])
                  "fs" None eq_refl eq_refl eq_refl)).
Defined.

Lemma child_info_is_scandir_record_witness :
  _get_obj_by_path sample_fs "/head"
    = Ok (TreeDir "head" sample_commit (commit_tree sample_commit)) /\
  NoDup (map entry_name (tree_entries (commit_tree sample_commit))) /\
  In (EBlob license_blob) (tree_entries (commit_tree sample_commit)) /\
  is_segment (entry_name (EBlob license_blob)) = true /\
  GitFS_getinfo (host := sample_host) sample_fs "head/LICENSE" None
    = Ok (GitInfo_init (host := sample_host)
            (attrs_of_entry (EBlob license_blob)) None).
Proof.
  assert (NoDup (map entry_name (tree_entries (commit_tree sample_commit))))
    as D.
  { simpl. repeat constructor; simpl; intuition discriminate. }
  assert (In (EBlob license_blob) (tree_entries (commit_tree sample_commit)))
    as I by (simpl; auto).
  split; [reflexivity|]. split; [exact D|]. split; [exact I|].
  split; [reflexivity|].
  exact (proj1 (child_info_is_scandir_record
                  (host := sample_host) sample_fs "/head"
                  (name := "head") (commit := sample_commit)
                  (tree := commit_tree sample_commit)
                  (EBlob license_blob) None eq_refl D I eq_refl)).
Defined.

Lemma ref_path_exists_iff_ref_named_witness :
  _get_obj_by_path sample_fs "/branches"
    = Ok (RefsDir "branches" (branches sample_repo)) /\
  is_segment "master" = true /\
  (GitFS_exists sample_fs "branches/master" = Ok true
   <-> exists r, In r (il_items (branches sample_repo)) /\
                 ref_name r = "master").
Proof.
  split; [reflexivity|]. split; [reflexivity|].
  exact (proj1 (ref_path_exists_iff_ref_named
                  (host := sample_host) sample_fs "/branches"
                  (name := "branches") (refs := branches sample_repo)
                  "master" None eq_refl eq_refl)).
Defined.

Lemma remotes_listing_matches_existence_witness :
  _get_obj_by_path sample_fs "/remotes"
    = Ok (RemotesDir "remotes" (remotes sample_repo)) /\
  il_prefix (remotes sample_repo) = "" /\
  GitFS_listdir (host := sample_host) sample_fs "/remotes"
    = Ok [Some "origin"] /\
  is_segment "origin" = true /\
  (In (Some "origin") [Some "origin"]
   <-> GitFS_exists sample_fs "remotes/origin" = Ok true).
Proof.
  split; [reflexivity|]. split; [reflexivity|]. split; [reflexivity|].
  split; [reflexivity|].
  exact (remotes_listing_matches_existence
           (host := sample_host) sample_fs "/remotes"
           (name := "remotes") (rems := remotes sample_repo)
           (names := [Some "origin"]) "origin"
           eq_refl eq_refl eq_refl eq_refl).
Defined.

Lemma root_children_exist_witness :
  head_commit (repo sample_fs) = Some sample_commit /\
  In "tags" root_names /\
  GitFS_exists sample_fs "/tags" = Ok true.
Proof.
  assert (In "tags" root_names) as I by (simpl; auto).
  split; [reflexivity|]. split; [exact I|].
  exact (proj1 (root_children_exist
                  (host := sample_host) sample_fs (c := sample_commit)
                  (name := "tags") None eq_refl I)).
Defined.

Lemma same_tree_same_children_witness :
  _get_obj_by_path sample_fs "/head"
    = Ok (TreeDir "head" sample_commit (commit_tree sample_commit)) /\
  _get_obj_by_path sample_fs "/branches/master"
    = Ok (TreeDir "master" sample_commit (commit_tree sample_commit)) /\
  is_segment "fs" = true /\
  GitFS_exists sample_fs "head/fs" = GitFS_exists sample_fs "branches/master/fs".
Proof.
  split; [reflexivity|]. split; [reflexivity|]. split; [reflexivity|].
  exact (proj1 (proj2 (same_tree_same_children
                         (host := sample_host) sample_fs
                         "/head" "/branches/master"
                         (n1 := "head") (n2 := "master")
                         (commit := sample_commit)
                         (tree := commit_tree sample_commit)
                         "fs" None eq_refl eq_refl eq_refl))).
Defined.

Lemma scandir_pages_witness :
  _get_obj_by_path sample_fs "/head"
    = Ok (TreeDir "head" sample_commit (commit_tree sample_commit)) /\
  defines_scandir (TreeDir "head" sample_commit (commit_tree sample_commit))
    = true /\
  (forall r, TreeDir "head" sample_commit (commit_tree sample_commit)
             = RootDir r -> head_commit r <> None) /\
  exists infos,
    GitFS_scandir (host := sample_host) sample_fs "/head" None None
      = Ok (mkGen infos None) /\
    GitFS_scandir (host := sample_host) sample_fs "/head" None (Some (1, 3))
      = Ok (mkGen (firstn 2 (skipn 1 infos)) None).
Proof.
  assert (forall r, TreeDir "head" sample_commit (commit_tree sample_commit)
                    = RootDir r -> head_commit r <> None) as Hh
      by (intros r H; discriminate H).
  split; [reflexivity|]. split; [reflexivity|]. split; [exact Hh|].
  destruct (scandir_pages
              (host := sample_host) sample_fs "/head"
              (obj := TreeDir "head" sample_commit (commit_tree sample_commit))
              None eq_refl eq_refl Hh) as [infos [A [P _]]].
  exists infos. split; [exact A | exact (P 1 3)].
Defined.

Lemma kind_decides_operations_witness :
  GitFS_getinfo (host := sample_host) sample_fs "/head/LICENSE" None
    = Ok (GitInfo_init (host := sample_host)
            (attrs_of_blob license_blob) None) /\
  GitFS_listdir (host := sample_host) sample_fs "/head/LICENSE"
    = Raise (DirectoryExpected "/head/LICENSE").
Proof.
  split; [reflexivity|].
  destruct (kind_decides_operations
              (host := sample_host) sample_fs "/head/LICENSE" None
              (i := GitInfo_init (host := sample_host)
                      (attrs_of_blob license_blob) None) eq_refl)
    as [F _].
  destruct (F eq_refl) as [b [_ [L _]]]. exact L.
Defined.

Lemma open_then_read_witness :
  validatepath (HostFramework := sample_host) "head/LICENSE"
    = Ok "/head/LICENSE" /\
  _get_obj_by_path sample_fs "/head/LICENSE" = Ok (Blob license_blob) /\
  exists f,
    GitFS_openbin (host := sample_host) sample_fs "head/LICENSE" "r" (-1)
      = Ok f /\
    fst (BytesIO_read f None) = Ok (bytes_of "MIT License").
Proof.
  split; [reflexivity|]. split; [reflexivity|].
  destruct (open_then_read
              (host := sample_host) sample_fs "head/LICENSE"
              (path := "/head/LICENSE") "r" (-1)%Z (blob := license_blob) 3
              eq_refl eq_refl) as [f [O [R _]]].
  exists f. split; [exact O | exact R].
Defined.

(* ------------------------------------------------------------------ *)
(** ** Separators inside a path *)

Section Inner.

Context {host : HostFramework}.

(** X16: a doubled separator inside a path is not collapsed: below a tree
    directory none of whose entries has an empty name, the path with two
    separators before a segment is reported missing, whether or not the
    segment names a child. *)
Theorem doubled_separator_not_collapsed
        (self : GitFS) (path name : string) (commit : Commit)
        (tree : RawTree) (seg : string) (namespaces : option (list string)) :
  _get_obj_by_path self path = Ok (TreeDir name commit tree) ->
  (forall e, In e (tree_entries tree) -> entry_name e <> "") ->
  is_segment seg = true ->
  GitFS_exists self (strip_slash path ++ String "/" (String "/" seg))
    = Ok false /\
  GitFS_getinfo self (strip_slash path ++ String "/" (String "/" seg))
                namespaces
    = Raise (ResourceNotFound
               (strip_slash path ++ String "/" (String "/" seg))) /\
  GitFS_listdir self (strip_slash path ++ String "/" (String "/" seg))
    = Raise (ResourceNotFound
               (strip_slash path ++ String "/" (String "/" seg))).
Proof.
  intros Hr Hne Hseg.
  pose proof (resolved_walk self path Hr) as W.
  destruct (strip_slash path) as [|c r] eqn:E.
  { simpl in W. discriminate W. }
  cbn [truthy] in W.
  pose proof (strip_slash_head _ E) as Hc.
  apply andb_true_iff in Hseg. destruct Hseg as [Ht Hs].
  apply negb_true_iff in Hs.
  assert (strip_slash (String c r ++ String "/" (String "/" seg))
          = (String c r ++ String "/" (String "/" seg))%string) as S.
  { unfold strip_slash. simpl. rewrite Hc.
    change (String c (r ++ String "/" (String "/" seg))%string)
      with (String c r ++ String "/" (String "/" seg))%string.
    apply rstrip_slash_app; [|discriminate].
    simpl. rewrite rstrip_slash_no_slash; auto.
    destruct seg; [discriminate Ht | reflexivity]. }
  assert (_get_obj_by_path self (String c r ++ String "/" (String "/" seg))
          = Raise (ResourceNotFound
                     (String c r ++ String "/" (String "/" seg)))) as R.
  { unfold _get_obj_by_path. rewrite S. cbn [truthy append].
    change (String c (r ++ String "/" (String "/" seg))%string)
      with (String c r ++ String "/" (String "/" seg))%string.
    rewrite split_slash_app, walk_app, W.
    cbn [split_slash bind walk is_slash]. simpl.
    unfold TreeDir_get, tree_getitem.
    destruct (find _ (tree_entries tree)) as [e|] eqn:F; [|reflexivity].
    apply find_some in F. destruct F as [Hin Heq].
    apply String.eqb_eq in Heq. exfalso. exact (Hne e Hin Heq). }
  unfold GitFS_exists, GitFS_getinfo, GitFS_listdir. rewrite R.
  repeat split.
Qed.

End Inner.

Lemma doubled_separator_not_collapsed_witness :
  _get_obj_by_path sample_fs "/head"
    = Ok (TreeDir "head" sample_commit (commit_tree sample_commit)) /\
  (forall e, In e (tree_entries (commit_tree sample_commit)) ->
             entry_name e <> "") /\
  is_segment "fs" = true /\
  GitFS_exists sample_fs "head//fs" = Ok false /\
  GitFS_exists sample_fs "head/fs" = Ok true.
Proof.
  assert (forall e, In e (tree_entries (commit_tree sample_commit)) ->
                    entry_name e <> "") as N.
  { simpl. intros e [<-|[<-|[<-|[<-|[]]]]]; simpl; discriminate. }
  split; [reflexivity|]. split; [exact N|]. split; [reflexivity|].
  split; [|reflexivity].
  exact (proj1 (doubled_separator_not_collapsed
                  (host := sample_host) sample_fs "/head"
                  (name := "head") (commit := sample_commit)
                  (tree := commit_tree sample_commit) "fs" None
                  eq_refl N eq_refl)).
Defined.
